(** * Superset front-end: database/schema selector, import modals, import
      helpers and the chart table of the welcome page

    A shallow embedding of
    - [superset-frontend/src/components/DatabaseSelector.tsx],
    - [superset-frontend/src/dashboard/components/ImportModal/index.tsx] and
      its dataset twin,
    - the [post] / [importDataset] helpers,
    - the [ChartTable] component ([getFilters], [getData]).

    React components are modelled by explicit state passing: a handler runs
    in a small state-and-exception monad over a world made of the hook (or
    class) state, the requests in flight and the trace of the calls that leave
    the component (props callbacks, HTTP client).  Values that a handler
    reads from its closure are those of the render that created it and are
    passed separately from the state the setters write. *)

From Stdlib Require Import ZArith String Ascii List Bool DecimalString.
Import ListNotations.

Local Open Scope list_scope.
Local Open Scope string_scope.

(* ================================================================== *)
(** * JavaScript values                                                  *)
(* ================================================================== *)

(** A value that may be [undefined] or [null].  The two are kept apart:
    [setCurrentSchema(undefined)] and [onSchemaChange(null)] are different
    calls, and [Object.is] tells them apart in a dependency array. *)
Inductive js (A : Type) : Type :=
| undefined
| null
| val (a : A).

Arguments undefined {A}.
Arguments null {A}.
Arguments val {A} a.

(** Numbers are the integers (ids, page indices); NaN, infinities and
    fractions do not occur in the modelled code paths. *)
Definition number := Z.

(** [ToBoolean] on a nullable number: [undefined], [null] and [0] are falsy. *)
Definition truthy (x : js number) : bool :=
  match x with
  | val n => negb (n =? 0)%Z
  | _ => false
  end.

(** [ToBoolean] on a nullable object (or on a non-primitive in general). *)
Definition is_object {A} (x : js A) : bool :=
  match x with
  | val _ => true
  | _ => false
  end.

(** [x || y] on nullable numbers. *)
Definition or_else (x y : js number) : js number :=
  if truthy x then x else y.

(** [String(n)] for an integer: decimal digits, a leading minus sign. *)
Definition string_of_number (n : number) : string :=
  NilEmpty.string_of_int (Z.to_int n).

(** A template-literal hole [`${x}`] holding a nullable number. *)
Definition interpolate (x : js number) : string :=
  match x with
  | undefined => "undefined"
  | null => "null"
  | val n => string_of_number n
  end.

(** [Object.is] on nullable values. *)
Definition same_value {A} (eqb : A -> A -> bool) (x y : js A) : bool :=
  match x, y with
  | undefined, undefined => true
  | null, null => true
  | val a, val b => eqb a b
  | _, _ => false
  end.

(** [t] of [@superset-ui/core] with no translation catalogue loaded: the
    message is its own translation. *)
Definition t (msg : string) : string := msg.

(** [s.length !== 0] for a string. *)
Definition nonempty (s : string) : bool :=
  match s with
  | EmptyString => false
  | String _ _ => true
  end.

Fixpoint join (sep : string) (parts : list string) : string :=
  match parts with
  | [] => ""
  | [x] => x
  | x :: rest => x ++ sep ++ join sep rest
  end.

(* ================================================================== *)
(** * [encodeURI]                                                        *)
(* ================================================================== *)

(** Strings are sequences of UTF-8 bytes.  [encodeURI] keeps the reserved
    and unreserved URI characters and writes every other byte as [%XX]. *)
Module URI.

Definition uri_keep : string :=
  "ABCDEFGHIJKLMNOPQRSTUVWXYZabcdefghijklmnopqrstuvwxyz0123456789;,/?:@&=+$-_.!~*'()#".

Fixpoint mem (c : ascii) (s : string) : bool :=
  match s with
  | EmptyString => false
  | String d rest => Ascii.eqb c d || mem c rest
  end.

Definition hex_digit (n : nat) : ascii :=
  match String.get n "0123456789ABCDEF" with
  | Some c => c
  | None => "0"%char
  end.

Definition percent (c : ascii) : string :=
  let n := nat_of_ascii c in
  String "%" (String (hex_digit (n / 16)) (String (hex_digit (n mod 16)) "")).

Fixpoint encodeURI (s : string) : string :=
  match s with
  | EmptyString => ""
  | String c rest =>
      if mem c uri_keep then String c (encodeURI rest)
      else percent c ++ encodeURI rest
  end.

End URI.

(* ================================================================== *)
(** * [rison.encode]                                                     *)
(* ================================================================== *)

(** The encoder of the [rison] package on the values this program builds
    (booleans, integers, strings, arrays, plain objects).  An object is the
    list of its own enumerable properties in insertion order. *)
Module rison.

#[warnings="-register-all"]
Inductive value : Type :=
| Bool (b : bool)
| Num (n : number)
| Str (s : string)
| Arr (items : list value)
| Obj (fields : list (string * value)).

Definition not_idchar : string := " '!:(),*@$".
Definition not_idstart : string := "-0123456789".

Fixpoint all_idchar (s : string) : bool :=
  match s with
  | EmptyString => true
  | String c rest => negb (URI.mem c not_idchar) && all_idchar rest
  end.

(** [id_ok]: [/^[^-0123456789 '!:(),*@$][^ '!:(),*@$]*$/]. *)
Definition id_ok (s : string) : bool :=
  match s with
  | EmptyString => false
  | String c rest =>
      negb (URI.mem c not_idstart) && negb (URI.mem c not_idchar)
      && all_idchar rest
  end.

(** Inside quotes, ['] and [!] are escaped with [!]. *)
Fixpoint escape (s : string) : string :=
  match s with
  | EmptyString => ""
  | String c rest =>
      if URI.mem c "'!" then String "!" (String c (escape rest))
      else String c (escape rest)
  end.

Definition encode_string (s : string) : string :=
  if negb (nonempty s) then "''"
  else if id_ok s then s
  else "'" ++ escape s ++ "'".

(** [ks.sort()]: insertion into a list kept in ascending key order. *)
Fixpoint insert_key (kv : string * string) (l : list (string * string))
  : list (string * string) :=
  match l with
  | [] => [kv]
  | kv' :: rest =>
      if String.leb (fst kv) (fst kv') then kv :: l
      else kv' :: insert_key kv rest
  end.

Definition sort_keys (l : list (string * string)) : list (string * string) :=
  fold_right insert_key [] l.

Fixpoint encode (v : value) : string :=
  match v with
  | Bool b => if b then "!t" else "!f"
  | Num n => string_of_number n
  | Str s => encode_string s
  | Arr items => "!(" ++ join "," (map encode items) ++ ")"
  | Obj fields =>
      let encoded :=
        map (fun kv => match kv with (k, x) => (k, encode x) end) fields in
      "("
      ++ join ","
           (map (fun kv => encode_string (fst kv) ++ ":" ++ snd kv)
              (sort_keys encoded))
      ++ ")"
  end.

End rison.

(* ================================================================== *)
(** * Handlers: state, exceptions                                        *)
(* ================================================================== *)

(** The outcome of running a piece of JavaScript: it returns a value or
    throws. *)
Inductive completion (A : Type) : Type :=
| Return (a : A)
| Throw (what : string).

Arguments Return {A} a.
Arguments Throw {A} what.

(** A handler over a world [W]. *)
Definition handler (W A : Type) : Type := W -> completion A * W.

Definition ret {W A} (a : A) : handler W A := fun w => (Return a, w).

Definition bind {W A B} (m : handler W A) (k : A -> handler W B)
  : handler W B :=
  fun w =>
    match m w with
    | (Return a, w') => k a w'
    | (Throw e, w') => (Throw e, w')
    end.

Definition throw {W A} (what : string) : handler W A :=
  fun w => (Throw what, w).

(** [try { m } catch { h }]. *)
Definition try_catch {W A} (m : handler W A) (h : handler W A)
  : handler W A :=
  fun w =>
    match m w with
    | (Return a, w') => (Return a, w')
    | (Throw _, w') => h w'
    end.

Definition when {W} (c : bool) (m : handler W unit) : handler W unit :=
  if c then m else ret tt.

Declare Scope handler_scope.
Delimit Scope handler_scope with handler.

Notation "x <- m ;; k" := (bind m (fun x => k))
  (at level 61, m at next level, right associativity) : handler_scope.
Notation "m ;; k" := (bind m (fun _ => k))
  (at level 61, right associativity) : handler_scope.

(** The world a handler leaves behind, and what it returned. *)
Definition exec {W A} (m : handler W A) (w : W) : W := snd (m w).
Definition outcome {W A} (m : handler W A) (w : W) : completion A :=
  fst (m w).

(* ================================================================== *)
(** * DatabaseSelector.tsx                                               *)
(* ================================================================== *)

Module DatabaseSelector.

Local Open Scope handler_scope.

(** A row of the database list ([db: any]).  The refresh button passes
    [{ id: dbId }], an object with no other property. *)
Record Database : Type := {
  id : js number;
  backend : js string;
  database_name : js string
}.

(** An entry of the schema drop-down. *)
Record SchemaOption : Type := {
  value : string;
  label : string;
  title : string
}.

(** A row as [dbMutator] returns it: [{ ...row, label }]. *)
Record LabelledDatabase : Type := {
  row : Database;
  row_label : string
}.

(** [DatabaseSelectorProps].  A callback is opaque; an optional callback
    is recorded by whether the parent supplied it.  [onSchemaChange],
    [onDbChange] and [handleError] are required. *)
Record Props : Type := {
  dbId : js number;
  schema : js string;
  onSchemasLoad : bool;
  getDbList : bool;
  getTableList : bool;
  formMode : bool;
  onChange : bool
}.

(** The four [useState] cells. *)
Record State : Type := {
  currentDbId : js number;
  currentSchema : js string;
  schemaLoading : bool;
  schemaOptions : list SchemaOption
}.

(** What the component does that an observer can see, in order: the state
    setters it calls, the props callbacks it calls, the requests it hands
    to [SupersetClient.get]. *)
Inductive call : Type :=
| SetCurrentDbId (x : js number)
| SetCurrentSchema (x : js string)
| SetSchemaLoading (b : bool)
| SetSchemaOptions (options : list SchemaOption)
| OnSchemaChange (x : js string)
| OnDbChange (db : js Database)
| OnSchemasLoad (options : list SchemaOption)
| GetDbList (result : list Database)
| GetTableList (db : js number) (x : js string) (force : bool)
| OnChange (db : js number) (x : js string)
| HandleError (msg : string)
| Get (endpoint : string).

(** [hooks]: the state the next render will see; [inflight]: the endpoints
    of the schema requests not yet settled, oldest first; [trace]: the
    calls made so far, oldest first. *)
Record World : Type := {
  hooks : State;
  inflight : list string;
  trace : list call
}.

(** The promise [fetchSchemas] returns. *)
Inductive promise : Type :=
| resolved
| awaiting (endpoint : string).

(** How a request settles: [{ json }] with its [result] field, or a
    rejection. *)
Inductive response : Type :=
| Fulfilled (result : js (list string))
| Rejected.

Definition emit (c : call) : handler World unit :=
  fun w =>
    (Return tt,
     {| hooks := hooks w; inflight := inflight w;
        trace := (trace w ++ [c])%list |}).

Definition write (f : State -> State) : handler World unit :=
  fun w =>
    (Return tt,
     {| hooks := f (hooks w); inflight := inflight w; trace := trace w |}).

Definition setCurrentDbId (x : js number) : handler World unit :=
  emit (SetCurrentDbId x) ;;
  write (fun s =>
    {| currentDbId := x; currentSchema := currentSchema s;
       schemaLoading := schemaLoading s;
       schemaOptions := schemaOptions s |}).

Definition setCurrentSchema (x : js string) : handler World unit :=
  emit (SetCurrentSchema x) ;;
  write (fun s =>
    {| currentDbId := currentDbId s; currentSchema := x;
       schemaLoading := schemaLoading s;
       schemaOptions := schemaOptions s |}).

Definition setSchemaLoading (b : bool) : handler World unit :=
  emit (SetSchemaLoading b) ;;
  write (fun s =>
    {| currentDbId := currentDbId s; currentSchema := currentSchema s;
       schemaLoading := b; schemaOptions := schemaOptions s |}).

Definition setSchemaOptions (options : list SchemaOption)
  : handler World unit :=
  emit (SetSchemaOptions options) ;;
  write (fun s =>
    {| currentDbId := currentDbId s; currentSchema := currentSchema s;
       schemaLoading := schemaLoading s; schemaOptions := options |}).

(** [SupersetClient.get({ endpoint })]: the request is in flight. *)
Definition SupersetClient_get (endpoint : string) : handler World unit :=
  emit (Get endpoint) ;;
  fun w =>
    (Return tt,
     {| hooks := hooks w; inflight := (inflight w ++ [endpoint])%list;
        trace := trace w |}).

(** [Boolean(x)] on a boolean. *)
Definition Boolean (b : bool) : bool := b.

(** The endpoint built in [fetchSchemas] for [actualDbId]. *)
Definition schemas_endpoint (actualDbId : js number) (forceRefresh : bool)
  : string :=
  let queryParams :=
    rison.encode (rison.Obj [("force", rison.Bool (Boolean forceRefresh))]) in
  "/api/v1/database/" ++ interpolate actualDbId ++ "/schemas/?q="
  ++ queryParams.

Section Component.

Variable props : Props.

(** The hook values captured by the closures of the current render. *)
Variable render : State.

Definition fetchSchemas (databaseId : js number) (forceRefresh : bool)
  : handler World promise :=
  let actualDbId := or_else databaseId (dbId props) in
  if truthy actualDbId then
    setSchemaLoading true ;;
    let endpoint := schemas_endpoint actualDbId forceRefresh in
    SupersetClient_get endpoint ;;
    ret (awaiting endpoint)
  else ret resolved.

(** The [.then] callback of the request. *)
Definition fetchSchemas_then (result : js (list string))
  : handler World unit :=
  match result with
  | val names =>
      let options :=
        map (fun s => {| value := s; label := s; title := s |}) names in
      setSchemaOptions options ;;
      setSchemaLoading false ;;
      when (onSchemasLoad props) (emit (OnSchemasLoad options))
  | _ => throw "TypeError"
  end.

(** The [.catch] callback chained after it. *)
Definition fetchSchemas_catch : handler World unit :=
  setSchemaOptions [] ;;
  setSchemaLoading false ;;
  emit (HandleError (t "Error while fetching schema list")).

(** [get(...).then(...).catch(...)] once the request settles. *)
Definition settled (r : response) : handler World unit :=
  match r with
  | Fulfilled result =>
      try_catch (fetchSchemas_then result) fetchSchemas_catch
  | Rejected => fetchSchemas_catch
  end.

(** The body of [useEffect(..., [currentDbId])]. *)
Definition effect : handler World unit :=
  when (truthy (currentDbId render))
    (fetchSchemas (currentDbId render) false ;; ret tt).

Definition onSelectChange : handler World unit :=
  when (onChange props)
    (emit (OnChange (currentDbId render) (currentSchema render))).

Definition dbMutator (result : list Database)
  : handler World (list LabelledDatabase) :=
  when (getDbList props) (emit (GetDbList result)) ;;
  when (length result =? 0)%nat
    (emit
       (HandleError (t "It seems you don't have access to any database"))) ;;
  ret
    (map
       (fun r =>
          {| row := r;
             row_label :=
               match backend r with val s => s | null => "null"
               | undefined => "undefined" end
               ++ " "
               ++ match database_name r with val s => s | null => "null"
                  | undefined => "undefined" end |})
       result).

Definition changeDataBase (db : js Database) (force : bool)
  : handler World unit :=
  let dbId := match db with val d => id d | _ => null end in
  setSchemaOptions [] ;;
  emit (OnSchemaChange null) ;;
  emit (OnDbChange db) ;;
  fetchSchemas dbId force ;;
  setCurrentDbId dbId ;;
  setCurrentSchema undefined ;;
  onSelectChange.

Definition changeSchema (schemaOpt : js SchemaOption) (force : bool)
  : handler World unit :=
  let schema := match schemaOpt with val o => val (value o) | _ => null end in
  emit (OnSchemaChange schema) ;;
  setCurrentSchema schema ;;
  onSelectChange ;;
  when (getTableList props)
    (emit (GetTableList (currentDbId render) schema force)).

End Component.

(** ** The component over time *)

(** After a handler ran, React renders again and runs the effect when
    [currentDbId] is not the value of the previous render. *)
Definition commit (props : Props) (before : State) (w : World) : World :=
  if same_value Z.eqb (currentDbId before) (currentDbId (hooks w)) then w
  else exec (effect props (hooks w)) w.

(** A call of [changeDataBase] from the current render, and the render
    that follows it. *)
Definition change (props : Props) (db : js Database) (force : bool)
    (w : World) : World :=
  commit props (hooks w) (exec (changeDataBase props (hooks w) db force) w).

Fixpoint remove_nth {A} (i : nat) (l : list A) : list A :=
  match i, l with
  | _, [] => []
  | O, _ :: rest => rest
  | S j, x :: rest => x :: remove_nth j rest
  end.

(** What can happen to a mounted selector. *)
Inductive action : Type :=
| SelectDatabase (db : js Database)
| Refresh
| SelectSchema (item : js SchemaOption)
| DatabasesLoaded (result : list Database)
| Settle (i : nat) (r : response).

Definition step (props : Props) (a : action) (w : World) : World :=
  match a with
  | SelectDatabase db => change props db false w
  | Refresh =>
      if formMode props then w
      else
        change props
          (val {| id := dbId props; backend := undefined;
                  database_name := undefined |})
          true w
  | SelectSchema item =>
      commit props (hooks w) (exec (changeSchema props (hooks w) item false) w)
  | DatabasesLoaded result => exec (dbMutator props result) w
  | Settle i r =>
      match nth_error (inflight w) i with
      | Some _ =>
          commit props (hooks w)
            (exec (settled props r)
               {| hooks := hooks w; inflight := remove_nth i (inflight w);
                  trace := trace w |})
      | None => w
      end
  end.

Definition run (props : Props) (actions : list action) (w : World) : World :=
  fold_left (fun w a => step props a w) actions w.

(** The first render and its effect. *)
Definition mount (props : Props) : World :=
  let initial :=
    {| currentDbId := dbId props; currentSchema := schema props;
       schemaLoading := false; schemaOptions := [] |} in
  exec (effect props initial)
    {| hooks := initial; inflight := []; trace := [] |}.

(** The messages passed to [handleError], oldest first. *)
Fixpoint errors (tr : list call) : list string :=
  match tr with
  | [] => []
  | HandleError msg :: rest => msg :: errors rest
  | _ :: rest => errors rest
  end.

(** The arguments passed to [onChange], oldest first. *)
Fixpoint changes (tr : list call) : list (js number * js string) :=
  match tr with
  | [] => []
  | OnChange d s :: rest => (d, s) :: changes rest
  | _ :: rest => changes rest
  end.

Definition is_settle (a : action) : bool :=
  match a with
  | Settle _ _ => true
  | _ => false
  end.

End DatabaseSelector.

(* ================================================================== *)
(** * Import modals                                                      *)
(* ================================================================== *)

(** A [File] chosen in a file input. *)
Record File : Type := { file_name : string }.

(** The click that cancels a modal; only its identity matters. *)
Record MouseEvent : Type := { timeStamp : number }.

(** The change event of the file input: [event.target.files]. *)
Record ChangeEvent : Type := { files : js (list File) }.

(** [error?.length]. *)
Definition optional_length (error : js string) : js number :=
  match error with
  | val s => val (Z.of_nat (String.length s))
  | _ => undefined
  end.

(** [(files && files[0]) || undefined]: an empty or missing list gives
    [undefined]. *)
Definition first_file (fs : js (list File)) : js File :=
  match fs with
  | val (f :: _) => val f
  | _ => undefined
  end.

(** What the Upload button and the alert look like in a render. *)
Record View : Type := {
  visible : bool;
  alert : option string;
  upload_disabled : bool
}.

(** The calls a modal makes on its props and on the submit event. *)
Inductive modal_call : Type :=
| OnHide (e : MouseEvent)
| OnFileSelect
| OnSubmit (file : js File)
| PreventDefault
| StopPropagation
| FormReset.

(** dashboard/components/ImportModal/index.tsx *)
Module ImportDashboardModal.

Local Open Scope handler_scope.

Record DashboardProps : Type := {
  show : bool;
  error : js string
}.

Record DashboardState : Type := { dashboardFile : js File }.

Record World : Type := {
  state : DashboardState;
  trace : list modal_call
}.

Definition emit (c : modal_call) : handler World unit :=
  fun w => (Return tt, {| state := state w; trace := (trace w ++ [c])%list |}).

Definition setState (s : DashboardState) : handler World unit :=
  fun w => (Return tt, {| state := s; trace := trace w |}).

Definition constructor : World :=
  {| state := {| dashboardFile := undefined |}; trace := [] |}.

Definition onCancel (e : MouseEvent) : handler World unit :=
  setState {| dashboardFile := undefined |} ;;
  emit (OnHide e).

Definition changeFile (event : ChangeEvent) : handler World unit :=
  setState {| dashboardFile := first_file (files event) |} ;;
  emit OnFileSelect.

Definition submit : handler World unit :=
  emit PreventDefault ;;
  emit StopPropagation ;;
  fun w => emit (OnSubmit (dashboardFile (state w))) w.

Definition render (props : DashboardProps) (s : DashboardState) : View :=
  {| visible := show props;
     alert :=
       if truthy (optional_length (error props)) then
         match error props with val msg => Some msg | _ => None end
       else None;
     upload_disabled :=
       negb (is_object (dashboardFile s))
       || truthy (optional_length (error props)) |}.

(** A click on the Upload button: a disabled submit button does not
    submit its form; an enabled one fires the form's [onSubmit]. *)
Definition clickUpload (props : DashboardProps) : handler World unit :=
  fun w =>
    if upload_disabled (render props (state w)) then (Return tt, w)
    else submit w.

End ImportDashboardModal.

(** The dataset import modal. *)
Module ImportDatasetModal.

Local Open Scope handler_scope.

Record DatasetProps : Type := {
  show : bool;
  error : js string
}.

Record DatasetState : Type := { datasetFile : js File }.

Record World : Type := {
  state : DatasetState;
  trace : list modal_call
}.

Definition emit (c : modal_call) : handler World unit :=
  fun w => (Return tt, {| state := state w; trace := (trace w ++ [c])%list |}).

Definition setState (s : DatasetState) : handler World unit :=
  fun w => (Return tt, {| state := s; trace := trace w |}).

Definition constructor : World :=
  {| state := {| datasetFile := undefined |}; trace := [] |}.

(** [form] is the ref's current element, when there is one. *)
Definition componentDidUpdate (props prevProps : DatasetProps) (form : bool)
  : handler World unit :=
  when (truthy (optional_length (error props))
        && negb (truthy (optional_length (error prevProps)))
        && form)
    (emit FormReset).

Definition onCancel (e : MouseEvent) : handler World unit :=
  setState {| datasetFile := undefined |} ;;
  emit (OnHide e).

Definition changeFile (event : ChangeEvent) : handler World unit :=
  setState {| datasetFile := first_file (files event) |} ;;
  emit OnFileSelect.

Definition submit : handler World unit :=
  emit PreventDefault ;;
  emit StopPropagation ;;
  fun w => emit (OnSubmit (datasetFile (state w))) w.

Definition render (props : DatasetProps) (s : DatasetState) : View :=
  {| visible := show props;
     alert :=
       if truthy (optional_length (error props)) then
         match error props with val msg => Some msg | _ => None end
       else None;
     upload_disabled :=
       negb (is_object (datasetFile s))
       || truthy (optional_length (error props)) |}.

(** A click on the Upload button, as for the dashboard modal. *)
Definition clickUpload (props : DatasetProps) : handler World unit :=
  fun w =>
    if upload_disabled (render props (state w)) then (Return tt, w)
    else submit w.

End ImportDatasetModal.

(** The hide events and the submitted files of a modal trace. *)
Fixpoint hides (tr : list modal_call) : list MouseEvent :=
  match tr with
  | [] => []
  | OnHide e :: rest => e :: hides rest
  | _ :: rest => hides rest
  end.

Fixpoint submissions (tr : list modal_call) : list (js File) :=
  match tr with
  | [] => []
  | OnSubmit f :: rest => f :: submissions rest
  | _ :: rest => submissions rest
  end.

(* ================================================================== *)
(** * Import helpers                                                     *)
(* ================================================================== *)

(** [FormData]: the entries in the order they were appended. *)
Module FormData.

Definition t : Type := list (string * File).

Definition new : t := [].

Definition append (fd : t) (name : string) (f : File) : t :=
  (fd ++ [(name, f)])%list.

End FormData.

(** A request handed to [SupersetClient.post]. *)
Record PostRequest : Type := {
  endpoint : string;
  body : FormData.t
}.

(** The server's answer, as far as the helpers look at it. *)
Record JsonResponse : Type := { message : string }.

Section Client.

Local Open Scope handler_scope.

(** How the server settles a request: a response, or a rejection that
    [await] rethrows. *)
Variable server : PostRequest -> completion JsonResponse.

(** [await SupersetClient.post(req)]: the world is the list of requests
    sent so far. *)
Definition SupersetClient_post (req : PostRequest)
  : handler (list PostRequest) JsonResponse :=
  fun sent => (server req, (sent ++ [req])%list).

(** The dashboard helper. *)
Definition post (dashboardFile : File) : handler (list PostRequest) unit :=
  let endpoint := URI.encodeURI "/api/v1/dashboard/import/" in
  let formData := FormData.new in
  let formData := FormData.append formData "formData" dashboardFile in
  SupersetClient_post {| endpoint := endpoint; body := formData |} ;;
  ret tt.

(** The dataset helper. *)
Definition importDataset (datasetFile : File)
  : handler (list PostRequest) JsonResponse :=
  let endpoint := URI.encodeURI "/api/v1/dataset/import/" in
  let formData := FormData.new in
  let formData := FormData.append formData "formData" datasetFile in
  response <- SupersetClient_post {| endpoint := endpoint; body := formData |} ;;
  ret response.

End Client.

(* ================================================================== *)
(** * ChartTable                                                         *)
(* ================================================================== *)

Module ChartTable.

Local Open Scope handler_scope.

Definition PAGE_SIZE : number := 3%Z.

Record User : Type := { userId : number }.

(** A filter value is a string or a boolean. *)
Inductive filter_value : Type :=
| Text (s : string)
| Flag (b : bool).

Record Filter : Type := {
  id : string;
  operator : string;
  value : filter_value
}.

(** An entry of [sortBy], in a name space of its own: a filter has an
    [id] too. *)
Module SortColumn.
Record t : Type := {
  id : string;
  desc : bool
}.
End SortColumn.

(** The page request passed to [fetchData]. *)
Record FetchDataConfig : Type := {
  pageIndex : number;
  pageSize : number;
  sortBy : list SortColumn.t;
  filters : list Filter
}.

(** The calls of the table that leave it. *)
Inductive table_call : Type :=
| FetchData (config : FetchDataConfig)
| Request (resource : string) (config : FetchDataConfig)
| AddDangerToast.

Section Resource.

(** The resource type of [useListViewResource<D>]. *)
Variable D : Type.

Record World : Type := {
  resourceCollection : list D;
  resourceCount : number;
  inflight : list FetchDataConfig;
  trace : list table_call
}.

Definition emit (c : table_call) : handler World unit :=
  fun w =>
    (Return tt,
     {| resourceCollection := resourceCollection w;
        resourceCount := resourceCount w;
        inflight := inflight w;
        trace := (trace w ++ [c])%list |}).

(** Modelled from the spec: [fetchData] of [useListViewResource]
    (src/views/CRUD/hooks is not among the sources).  "fetchData
    (pageRequest) -> Promise<void>, updates resource collection and total
    count on success"; "the fetcher issues exactly one request with those
    parameters encoded". *)
Definition fetchData (resource : string) (config : FetchDataConfig)
  : handler World unit :=
  emit (FetchData config) ;;
  emit (Request resource config) ;;
  fun w =>
    (Return tt,
     {| resourceCollection := resourceCollection w;
        resourceCount := resourceCount w;
        inflight := (inflight w ++ [config])%list;
        trace := trace w |}).

(** Modelled from the spec: what [fetchData] does when its request
    succeeds with [{ result, count }] ("updates the resource collection
    with the server's result array on success"). *)
Definition fetchData_success (result : list D) (count : number)
  : handler World unit :=
  fun w =>
    (Return tt,
     {| resourceCollection := result;
        resourceCount := count;
        inflight := tl (inflight w);
        trace := trace w |}).

(** Modelled from the spec: a failed fetch is "caught locally and
    converted to a caller-supplied toast/error callback". *)
Definition fetchData_failure : handler World unit :=
  emit AddDangerToast ;;
  fun w =>
    (Return tt,
     {| resourceCollection := resourceCollection w;
        resourceCount := resourceCount w;
        inflight := tl (inflight w);
        trace := trace w |}).

(** The [user] prop is optional. *)
Variable user : js User.

(** [user?.userId]. *)
Definition optional_userId : js number :=
  match user with
  | val u => val (userId u)
  | _ => undefined
  end.

Definition getFilters (filterName : string) : list Filter :=
  let filters := [] in
  if String.eqb filterName "Mine" then
    (filters
     ++ [{| id := "created_by"; operator := "rel_o_m";
            value := Text (interpolate optional_userId) |}])%list
  else
    (filters
     ++ [{| id := "id"; operator := "chart_is_fav";
            value := Flag true |}])%list.

Definition getData (filter : string) : handler World unit :=
  fetchData "chart"
    {| pageIndex := 0%Z;
       pageSize := PAGE_SIZE;
       sortBy := [{| SortColumn.id := "changed_on_delta_humanized";
                     SortColumn.desc := true |}];
       filters := getFilters filter |}.

End Resource.

Arguments resourceCollection {D} w.
Arguments resourceCount {D} w.
Arguments inflight {D} w.
Arguments trace {D} w.

(** The page requests [fetchData] was called with, oldest first. *)
Fixpoint fetches (tr : list table_call) : list FetchDataConfig :=
  match tr with
  | [] => []
  | FetchData c :: rest => c :: fetches rest
  | _ :: rest => fetches rest
  end.

(** The requests that left for the server, oldest first. *)
Fixpoint requests (tr : list table_call) : list (string * FetchDataConfig) :=
  match tr with
  | [] => []
  | Request r c :: rest => (r, c) :: requests rest
  | _ :: rest => requests rest
  end.

End ChartTable.

(* ================================================================== *)
(** * components/Icon/index.tsx                                          *)
(* ================================================================== *)

Module Icon.

(** The members of the [IconName] union, in the order of the declaration. *)
Definition IconName : list string :=
  ["cancel-x"; "card-view"; "certified"; "check"; "checkbox-half";
   "checkbox-off"; "checkbox-on"; "circle-check-solid"; "circle-check";
   "close"; "nav-explore"; "database"; "dataset-physical";
   "dataset-virtual"; "dropdown-arrow"; "error-solid"; "favorite-selected";
   "favorite-unselected"; "list-view"; "more-horiz"; "edit-alt"; "search";
   "share"; "sort-asc"; "sort-desc"; "sort"; "trash"; "warning-solid"].

(** [iconsRegistry], in the order of the object literal; a component is
    named by the SVG file it is imported from. *)
Definition iconsRegistry : list (string * string) :=
  [("cancel-x", "images/icons/cancel-x.svg");
   ("card-view", "images/icons/card_view.svg");
   ("checkbox-half", "images/icons/checkbox-half.svg");
   ("checkbox-off", "images/icons/checkbox-off.svg");
   ("checkbox-on", "images/icons/checkbox-on.svg");
   ("circle-check-solid", "images/icons/circle_check_solid.svg");
   ("circle-check", "images/icons/circle_check.svg");
   ("database", "images/icons/database.svg");
   ("dataset-physical", "images/icons/dataset_physical.svg");
   ("dataset-virtual", "images/icons/dataset_virtual.svg");
   ("favorite-selected", "images/icons/favorite-selected.svg");
   ("favorite-unselected", "images/icons/favorite-unselected.svg");
   ("list-view", "images/icons/list_view.svg");
   ("dropdown-arrow", "images/icons/dropdown-arrow.svg");
   ("sort-asc", "images/icons/sort_asc.svg");
   ("sort-desc", "images/icons/sort_desc.svg");
   ("certified", "images/icons/certified.svg");
   ("check", "images/icons/check.svg");
   ("close", "images/icons/close.svg");
   ("nav-explore", "images/icons/nav_explore.svg");
   ("error-solid", "images/icons/error_solid.svg");
   ("more-horiz", "images/icons/more_horiz.svg");
   ("edit-alt", "images/icons/edit_alt.svg");
   ("search", "images/icons/search.svg");
   ("share", "images/icons/share.svg");
   ("sort", "images/icons/sort.svg");
   ("trash", "images/icons/trash.svg");
   ("warning-solid", "images/icons/warning_solid.svg")].

(** [registry[name]]. *)
Fixpoint lookup (name : string) (registry : list (string * string))
  : option string :=
  match registry with
  | [] => None
  | (k, c) :: rest => if String.eqb name k then Some c else lookup name rest
  end.

(** A props object: its properties in the order they were written, a later
    one overriding an earlier one of the same name. *)
Definition props : Type := list (string * js string).

Fixpoint has (k : string) (o : props) : bool :=
  match o with
  | [] => false
  | (k', _) :: rest => String.eqb k k' || has k rest
  end.

(** [o[k]]: the last binding of [k], [undefined] when there is none. *)
Fixpoint read (k : string) (o : props) : js string :=
  match o with
  | [] => undefined
  | (k', v) :: rest =>
      if has k rest then read k rest
      else if String.eqb k k' then v else undefined
  end.

(** The [...rest] of the destructuring: every property but the named
    ones. *)
Definition without (names : list string) (o : props) : props :=
  filter (fun kv => negb (existsb (String.eqb (fst kv)) names)) o.

(** A default value in a destructuring applies to [undefined] only. *)
Definition default (x : js string) (d : string) : js string :=
  match x with
  | undefined => val d
  | _ => x
  end.

(** The element [Icon] returns: the registry component and its props. *)
Record element : Type := {
  component : string;
  attributes : props
}.

(** [Icon]: [None] when [iconsRegistry[name]] is not a component. *)
Definition Icon (p : props) : option element :=
  let name := read "name" p in
  let color := default (read "color" p) "#666666" in
  let viewBox := default (read "viewBox" p) "0 0 24 24" in
  let rest := without ["name"; "color"; "viewBox"] p in
  match name with
  | val n =>
      match lookup n iconsRegistry with
      | Some Component =>
          Some
            {| component := Component;
               attributes :=
                 ([("color", color); ("viewBox", viewBox);
                   ("data-test", name)] ++ rest)%list |}
      | None => None
      end
  | _ => None
  end.

End Icon.

(* ================================================================== *)
(** * More notions for the database selector                             *)
(* ================================================================== *)

(** The endpoints handed to [SupersetClient.get], oldest first. *)
Fixpoint gets (tr : list DatabaseSelector.call) : list string :=
  match tr with
  | [] => []
  | DatabaseSelector.Get e :: rest => e :: gets rest
  | _ :: rest => gets rest
  end.

(** An endpoint [fetchSchemas] builds for a truthy database id. *)
Definition schemas_request (e : string) : Prop :=
  exists d f,
    truthy d = true /\ e = DatabaseSelector.schemas_endpoint d f.

(** [w'] is [w] after some more calls, whose requests are all of that
    form. *)
Definition extends (w w' : DatabaseSelector.World) : Prop :=
  exists added,
    DatabaseSelector.trace w' = (DatabaseSelector.trace w ++ added)%list
    /\ Forall schemas_request (gets added).

(** The calls of a modal on [onFileSelect]. *)
Fixpoint selections (tr : list modal_call) : nat :=
  match tr with
  | [] => 0
  | OnFileSelect :: rest => S (selections rest)
  | _ :: rest => selections rest
  end.

(* ================================================================== *)
(** * Notions the statements use                                           *)
(* ================================================================== *)

(** A request fails when it is rejected, or when its response carries no
    [result] array and the [.then] callback throws on [json.result.map]. *)
Definition failed (r : DatabaseSelector.response) : bool :=
  match r with
  | DatabaseSelector.Fulfilled (val _) => false
  | _ => true
  end.

(** "No schema option belonging to a previously selected database is ever
    present once the database changes": after a call of [changeDataBase], a
    response to a request for another database than the selected one leaves
    the schema options empty. *)
Definition options_never_stale : Prop :=
  forall props w db force i endpoint names,
    let w1 := DatabaseSelector.change props db force w in
    nth_error (DatabaseSelector.inflight w1) i = Some endpoint ->
    (forall f,
        endpoint <>
        DatabaseSelector.schemas_endpoint
          (DatabaseSelector.currentDbId (DatabaseSelector.hooks w1)) f) ->
    DatabaseSelector.schemaOptions
      (DatabaseSelector.hooks
         (DatabaseSelector.step props
            (DatabaseSelector.Settle i
               (DatabaseSelector.Fulfilled (val names))) w1)) = [].

(** A selector mounted on database 1 with schema [public], and a row for
    database 2. *)
Definition selector_on_1 : DatabaseSelector.Props :=
  {| DatabaseSelector.dbId := val 1%Z;
     DatabaseSelector.schema := val "public";
     DatabaseSelector.onSchemasLoad := true;
     DatabaseSelector.getDbList := true;
     DatabaseSelector.getTableList := true;
     DatabaseSelector.formMode := false;
     DatabaseSelector.onChange := true |}.

Definition database_2 : DatabaseSelector.Database :=
  {| DatabaseSelector.id := val 2%Z;
     DatabaseSelector.backend := val "postgresql";
     DatabaseSelector.database_name := val "examples" |}.

(* ================================================================== *)
(** * Properties of the database selector                                *)
(* ================================================================== *)

Section DatabaseSelectorFacts.

Import DatabaseSelector.

Local Arguments schemas_endpoint : simpl never.

Lemma errors_app (a b : list call) :
  errors (a ++ b)%list = (errors a ++ errors b)%list.
Proof.
  induction a as [|c a IH]; [reflexivity|].
  destruct c; simpl; rewrite ?IH; reflexivity.
Qed.

Lemma changes_app (a b : list call) :
  changes (a ++ b)%list = (changes a ++ changes b)%list.
Proof.
  induction a as [|c a IH]; [reflexivity|].
  destruct c; simpl; rewrite ?IH; reflexivity.
Qed.

Lemma same_value_refl (x : js number) : same_value Z.eqb x x = true.
Proof. destruct x; simpl; auto using Z.eqb_refl. Qed.

(** [fetchSchemas] written out: what it returns and the world it leaves. *)
Lemma fetchSchemas_unfold props databaseId forceRefresh w :
  fetchSchemas props databaseId forceRefresh w =
  let actualDbId := or_else databaseId (dbId props) in
  if truthy actualDbId then
    let e := schemas_endpoint actualDbId forceRefresh in
    (Return (awaiting e),
     {| hooks :=
          {| currentDbId := currentDbId (hooks w);
             currentSchema := currentSchema (hooks w);
             schemaLoading := true;
             schemaOptions := schemaOptions (hooks w) |};
        inflight := (inflight w ++ [e])%list;
        trace := (trace w ++ [SetSchemaLoading true; Get e])%list |})
  else (Return resolved, w).
Proof.
  unfold fetchSchemas. cbv zeta.
  destruct (truthy (or_else databaseId (dbId props))); [|reflexivity].
  cbn. rewrite <- app_assoc. reflexivity.
Qed.

(** The effect never touches the schema options or the selection, and
    settles nothing. *)
Lemma effect_keeps props r w :
  schemaOptions (hooks (exec (effect props r) w)) = schemaOptions (hooks w)
  /\ currentSchema (hooks (exec (effect props r) w)) = currentSchema (hooks w)
  /\ currentDbId (hooks (exec (effect props r) w)) = currentDbId (hooks w)
  /\ exists issued,
       inflight (exec (effect props r) w) = (inflight w ++ issued)%list.
Proof.
  unfold effect, exec, when.
  destruct (truthy (currentDbId r)).
  - unfold bind. rewrite fetchSchemas_unfold. cbv zeta.
    destruct (truthy (or_else (currentDbId r) (dbId props))); cbn.
    + repeat split. eexists; reflexivity.
    + repeat split. exists []. now rewrite app_nil_r.
  - cbn. repeat split. exists []. now rewrite app_nil_r.
Qed.

Lemma commit_keeps props before w :
  schemaOptions (hooks (commit props before w)) = schemaOptions (hooks w)
  /\ currentSchema (hooks (commit props before w)) = currentSchema (hooks w)
  /\ currentDbId (hooks (commit props before w)) = currentDbId (hooks w)
  /\ exists issued,
       inflight (commit props before w) = (inflight w ++ issued)%list.
Proof.
  unfold commit.
  destruct (same_value Z.eqb (currentDbId before) (currentDbId (hooks w))).
  - repeat split. exists []. now rewrite app_nil_r.
  - apply effect_keeps.
Qed.

(** [changeDataBase] written out: the state it leaves for the next
    render, the request it may issue, and its calls in order. *)
Lemma changeDataBase_unfold props render db force w :
  exec (changeDataBase props render db force) w =
  let selected := match db with val d => id d | _ => null end in
  let actualDbId := or_else selected (dbId props) in
  let e := schemas_endpoint actualDbId force in
  {| hooks :=
       {| currentDbId := selected;
          currentSchema := undefined;
          schemaLoading :=
            if truthy actualDbId then true else schemaLoading (hooks w);
          schemaOptions := [] |};
     inflight :=
       (inflight w ++ if truthy actualDbId then [e] else [])%list;
     trace :=
       (trace w
        ++ [SetSchemaOptions []; OnSchemaChange null; OnDbChange db]
        ++ (if truthy actualDbId then [SetSchemaLoading true; Get e] else [])
        ++ [SetCurrentDbId selected; SetCurrentSchema undefined]
        ++ (if onChange props
            then [OnChange (currentDbId render) (currentSchema render)]
            else []))%list |}.
Proof.
  unfold changeDataBase, exec. cbv zeta.
  set (selected := match db with val d => id d | _ => null end).
  unfold bind at 1 2 3. cbn [setSchemaOptions emit write bind fst snd].
  unfold bind at 1. rewrite fetchSchemas_unfold. cbv zeta.
  unfold onSelectChange, when.
  destruct (truthy (or_else selected (dbId props))), (onChange props);
    cbn; rewrite <- ?app_assoc; cbn; rewrite ?app_nil_r; reflexivity.
Qed.

Lemma change_keeps props db force w :
  schemaOptions (hooks (change props db force w)) = []
  /\ currentSchema (hooks (change props db force w)) = undefined
  /\ currentDbId (hooks (change props db force w))
     = match db with val d => id d | _ => null end
  /\ exists issued,
       inflight (change props db force w) = (inflight w ++ issued)%list.
Proof.
  unfold change.
  destruct (commit_keeps props (hooks w)
              (exec (changeDataBase props (hooks w) db force) w))
    as (Ho & Hs & Hd & issued & Hi).
  rewrite Ho, Hs, Hd, Hi, changeDataBase_unfold. cbn.
  repeat split. rewrite <- app_assoc. eexists; reflexivity.
Qed.

Lemma changeSchema_keeps_options props r item force w :
  schemaOptions (hooks (exec (changeSchema props r item force) w))
  = schemaOptions (hooks w).
Proof.
  unfold changeSchema, onSelectChange, when, exec.
  destruct (onChange props), (getTableList props); reflexivity.
Qed.

Lemma dbMutator_keeps_hooks props result w :
  hooks (exec (dbMutator props result) w) = hooks w.
Proof.
  unfold dbMutator, when, exec.
  destruct (getDbList props), (length result =? 0)%nat; reflexivity.
Qed.

(** A step that settles no request leaves empty options empty. *)
Lemma quiet_step_keeps_empty props a w :
  is_settle a = false ->
  schemaOptions (hooks w) = [] ->
  schemaOptions (hooks (step props a w)) = [].
Proof.
  intros Hq He. destruct a as [db| |item|result|i r]; simpl.
  - apply change_keeps.
  - destruct (formMode props); [exact He|apply change_keeps].
  - destruct (commit_keeps props (hooks w)
                (exec (changeSchema props (hooks w) item false) w))
      as (Ho & _).
    now rewrite Ho, changeSchema_keeps_options.
  - now rewrite dbMutator_keeps_hooks.
  - discriminate.
Qed.

Lemma quiet_run_keeps_empty props actions :
  forall w,
    forallb (fun a => negb (is_settle a)) actions = true ->
    schemaOptions (hooks w) = [] ->
    schemaOptions (hooks (run props actions w)) = [].
Proof.
  induction actions as [|a actions IH]; intros w Hq He; [exact He|].
  simpl in Hq. apply andb_prop in Hq as [Ha Hq].
  apply negb_true_iff in Ha.
  simpl. apply IH; [exact Hq|].
  now apply quiet_step_keeps_empty.
Qed.

(** C1 (amended).  A call of [changeDataBase(db, force)] first sets the
    schema options to the empty list, and the state it leaves has empty
    options and an undefined schema selection while every request,
    including the one just issued, is still in flight; the options stay
    empty until some request settles.  Nothing is said about whose
    response that is. *)
Theorem changeDataBase_clears_schemas props w db force :
  let w1 := change props db force w in
  schemaOptions (hooks w1) = []
  /\ currentSchema (hooks w1) = undefined
  /\ (exists rest,
        trace (exec (changeDataBase props (hooks w) db force) w)
        = (trace w ++ SetSchemaOptions [] :: rest)%list)
  /\ (exists issued, inflight w1 = (inflight w ++ issued)%list)
  /\ (forall actions,
        forallb (fun a => negb (is_settle a)) actions = true ->
        schemaOptions (hooks (run props actions w1)) = []).
Proof.
  cbv zeta.
  destruct (change_keeps props db force w) as (Ho & Hs & _ & Hi).
  repeat split; try assumption.
  - rewrite changeDataBase_unfold. cbv zeta. eexists. reflexivity.
  - intros actions Hq. now apply quiet_run_keeps_empty.
Qed.

(** C1 (as stated) fails: the selector is mounted on database 1, whose
    schema request is still in flight when database 2 is selected; its
    response then fills the options while database 2 is the selection. *)
Lemma stale_options_after_change : ~ options_never_stale.
Proof.
  intros H.
  specialize
    (H selector_on_1 (mount selector_on_1) (val database_2) false 0%nat
       "/api/v1/database/1/schemas/?q=(force:!f)" ["information_schema"]).
  cbv zeta in H.
  assert (Hreq : nth_error
            (inflight (change selector_on_1 (val database_2) false
                         (mount selector_on_1))) 0
          = Some "/api/v1/database/1/schemas/?q=(force:!f)")
    by reflexivity.
  specialize (H Hreq).
  assert (Hother : forall f,
             "/api/v1/database/1/schemas/?q=(force:!f)" <>
             schemas_endpoint
               (currentDbId
                  (hooks (change selector_on_1 (val database_2) false
                            (mount selector_on_1)))) f)
    by (intros [|]; vm_compute; discriminate).
  specialize (H Hother).
  vm_compute in H. discriminate H.
Qed.

(** C2.  When a schema request fails (it is rejected, or its response has
    no [result] array), the continuation of [fetchSchemas] returns without
    throwing; it sets the schema options to the empty list, switches the
    loading indicator off and calls [handleError] once, with the message
    "Error while fetching schema list"; the selected database and schema
    are what they were.  The same holds of the step that settles the
    request, which issues no new request. *)
Theorem failed_fetch_is_reported props w r :
  failed r = true ->
  let after :=
    {| hooks :=
         {| currentDbId := currentDbId (hooks w);
            currentSchema := currentSchema (hooks w);
            schemaLoading := false;
            schemaOptions := [] |};
       inflight := inflight w;
       trace :=
         (trace w
          ++ [SetSchemaOptions []; SetSchemaLoading false;
              HandleError (t "Error while fetching schema list")])%list |} in
  settled props r w = (Return tt, after)
  /\ errors (trace after)
     = (errors (trace w) ++ ["Error while fetching schema list"])%list
  /\ forall i e,
       nth_error (inflight w) i = Some e ->
       let w' := step props (Settle i r) w in
       hooks w' = hooks after
       /\ trace w' = trace after
       /\ inflight w' = remove_nth i (inflight w).
Proof.
  intros Hf. cbv zeta.
  assert (Hcatch : forall v,
             fetchSchemas_catch v =
             (Return tt,
              {| hooks :=
                   {| currentDbId := currentDbId (hooks v);
                      currentSchema := currentSchema (hooks v);
                      schemaLoading := false;
                      schemaOptions := [] |};
                 inflight := inflight v;
                 trace :=
                   (trace v
                    ++ [SetSchemaOptions []; SetSchemaLoading false;
                        HandleError
                          (t "Error while fetching schema list")])%list |})).
  { intros v.
    unfold fetchSchemas_catch, setSchemaOptions, setSchemaLoading, bind,
      emit, write.
    cbn. rewrite <- !app_assoc. reflexivity. }
  assert (Hset : forall v, settled props r v = fetchSchemas_catch v).
  { intros v. destruct r as [[| |names]|]; try discriminate Hf; reflexivity. }
  split; [|split].
  - now rewrite Hset, Hcatch.
  - cbn [trace]. rewrite errors_app. reflexivity.
  - intros i e Hi. cbv zeta. cbn [step]. rewrite Hi.
    unfold exec. rewrite Hset, Hcatch. cbn [snd].
    unfold commit. cbn [hooks currentDbId].
    rewrite same_value_refl. cbn. repeat split.
Qed.

Lemma failed_fetch_is_reported_witness :
  failed Rejected = true
  /\ settled selector_on_1 Rejected
       (change selector_on_1 (val database_2) false (mount selector_on_1))
     = (Return tt,
        {| hooks :=
             {| currentDbId := val 2%Z; currentSchema := undefined;
                schemaLoading := false; schemaOptions := [] |};
           inflight :=
             ["/api/v1/database/1/schemas/?q=(force:!f)";
              "/api/v1/database/2/schemas/?q=(force:!f)";
              "/api/v1/database/2/schemas/?q=(force:!f)"];
           trace :=
             (trace
                (change selector_on_1 (val database_2) false
                   (mount selector_on_1))
              ++ [SetSchemaOptions []; SetSchemaLoading false;
                  HandleError "Error while fetching schema list"])%list |}).
Proof.
  split; [reflexivity|].
  exact (proj1 (failed_fetch_is_reported selector_on_1
                  (change selector_on_1 (val database_2) false
                     (mount selector_on_1))
                  Rejected eq_refl)).
Defined.

(** C4.  For a database-list response, [dbMutator] calls [handleError]
    exactly once, with the access message, when the [result] array is
    empty, and not at all when it has an element; it touches no state. *)
Theorem dbMutator_reports_no_access props w result :
  let w' := exec (dbMutator props result) w in
  errors (trace w')
  = (errors (trace w)
     ++ match result with
        | [] => [t "It seems you don't have access to any database"]
        | _ :: _ => []
        end)%list
  /\ hooks w' = hooks w
  /\ inflight w' = inflight w.
Proof.
  cbv zeta. unfold dbMutator, when, exec.
  destruct (getDbList props), result as [|d rest]; cbn;
    rewrite ?errors_app, ?app_nil_r; cbn; rewrite ?app_nil_r;
      repeat split.
Qed.

(** C8.  For a database id [d] (a non-zero number) and a flag
    [forceRefresh], [fetchSchemas] issues one request, to
    [/api/v1/database/{d}/schemas/?q=Q] where [Q] is the rison encoding of
    the object whose only property is [force: forceRefresh], that is
    [(force:!t)] when a refresh is forced and [(force:!f)] otherwise. *)
Theorem fetchSchemas_endpoint props w d forceRefresh :
  d <> 0%Z ->
  let Q := rison.encode (rison.Obj [("force", rison.Bool forceRefresh)]) in
  let e := "/api/v1/database/" ++ string_of_number d ++ "/schemas/?q=" ++ Q in
  let w' := exec (fetchSchemas props (val d) forceRefresh) w in
  outcome (fetchSchemas props (val d) forceRefresh) w = Return (awaiting e)
  /\ inflight w' = (inflight w ++ [e])%list
  /\ trace w' = (trace w ++ [SetSchemaLoading true; Get e])%list
  /\ Q = (if forceRefresh then "(force:!t)" else "(force:!f)").
Proof.
  intros Hd. cbv zeta. unfold exec, outcome.
  rewrite fetchSchemas_unfold. cbv zeta.
  assert (Ht : or_else (val d) (dbId props) = val d).
  { unfold or_else, truthy. apply Z.eqb_neq in Hd. now rewrite Hd. }
  rewrite Ht.
  assert (Ht' : truthy (val d) = true).
  { unfold truthy. apply Z.eqb_neq in Hd. now rewrite Hd. }
  rewrite Ht'. cbn [fst snd inflight trace].
  repeat split. destruct forceRefresh; reflexivity.
Qed.

Lemma fetchSchemas_endpoint_witness :
  7%Z <> 0%Z
  /\ outcome (fetchSchemas selector_on_1 (val 7%Z) true)
       (mount selector_on_1)
     = Return (awaiting "/api/v1/database/7/schemas/?q=(force:!t)").
Proof.
  split; [discriminate|].
  exact (proj1 (fetchSchemas_endpoint selector_on_1 (mount selector_on_1)
                  7%Z true ltac:(discriminate))).
Defined.

(** C9.  In a call of [changeDataBase] with an [onChange] prop, [onChange]
    is called once, after [setCurrentDbId] and [setCurrentSchema], and it
    receives the database id and the schema of the render the call came
    from, while the state left for the next render holds the newly
    selected id and an undefined schema. *)
Theorem onChange_gets_previous_selection props w db force :
  onChange props = true ->
  let selected := match db with val d => id d | _ => null end in
  let w' := exec (changeDataBase props (hooks w) db force) w in
  changes (trace w')
  = (changes (trace w)
     ++ [(currentDbId (hooks w), currentSchema (hooks w))])%list
  /\ (exists before,
        trace w'
        = (before
           ++ [SetCurrentDbId selected; SetCurrentSchema undefined;
               OnChange (currentDbId (hooks w))
                 (currentSchema (hooks w))])%list)
  /\ currentDbId (hooks w') = selected
  /\ currentSchema (hooks w') = undefined.
Proof.
  intros Hc. cbv zeta. rewrite changeDataBase_unfold. cbv zeta.
  rewrite Hc. cbn [trace hooks currentDbId currentSchema].
  repeat split.
  - rewrite !changes_app.
    destruct (truthy
                (or_else match db with val d => id d | _ => null end
                   (dbId props))); cbn; reflexivity.
  - rewrite !app_assoc. rewrite <- (app_assoc _ [_; _] [_]).
    eexists. reflexivity.
Qed.

Lemma onChange_gets_previous_selection_witness :
  onChange selector_on_1 = true
  /\ changes
       (trace
          (exec
             (changeDataBase selector_on_1 (hooks (mount selector_on_1))
                (val database_2) false)
             (mount selector_on_1)))
     = [(val 1%Z, val "public")].
Proof.
  split; [reflexivity|].
  exact (proj1 (onChange_gets_previous_selection selector_on_1
                  (mount selector_on_1) (val database_2) false eq_refl)).
Defined.

(** C10.  When [databaseId] is falsy ([undefined], [null] or [0]),
    [fetchSchemas] uses the [dbId] prop instead: if the prop is truthy,
    one request for the prop's database is issued and the promise
    returned awaits it; if the prop is falsy too, nothing is requested,
    the world is untouched and the promise returned is already
    resolved. *)
Theorem fetchSchemas_falls_back_to_prop props w databaseId forceRefresh :
  truthy databaseId = false ->
  fetchSchemas props databaseId forceRefresh w
  = if truthy (dbId props) then
      let e := schemas_endpoint (dbId props) forceRefresh in
      (Return (awaiting e),
       {| hooks :=
            {| currentDbId := currentDbId (hooks w);
               currentSchema := currentSchema (hooks w);
               schemaLoading := true;
               schemaOptions := schemaOptions (hooks w) |};
          inflight := (inflight w ++ [e])%list;
          trace := (trace w ++ [SetSchemaLoading true; Get e])%list |})
    else (Return resolved, w).
Proof.
  intros Hf. rewrite fetchSchemas_unfold. cbv zeta.
  unfold or_else. rewrite Hf. reflexivity.
Qed.

Lemma fetchSchemas_falls_back_to_prop_witness :
  truthy (val 0%Z) = false
  /\ fetchSchemas selector_on_1 (val 0%Z) false (mount selector_on_1)
     = (Return (awaiting "/api/v1/database/1/schemas/?q=(force:!f)"),
        {| hooks :=
             {| currentDbId := val 1%Z; currentSchema := val "public";
                schemaLoading := true; schemaOptions := [] |};
           inflight :=
             ["/api/v1/database/1/schemas/?q=(force:!f)";
              "/api/v1/database/1/schemas/?q=(force:!f)"];
           trace :=
             [SetSchemaLoading true;
              Get "/api/v1/database/1/schemas/?q=(force:!f)";
              SetSchemaLoading true;
              Get "/api/v1/database/1/schemas/?q=(force:!f)"] |}).
Proof.
  split; [reflexivity|].
  exact (fetchSchemas_falls_back_to_prop selector_on_1
           (mount selector_on_1) (val 0%Z) false eq_refl).
Defined.

End DatabaseSelectorFacts.

(* ================================================================== *)
(** * Properties of the import modals                                    *)
(* ================================================================== *)

Section ImportModalFacts.

Lemma hides_app (a b : list modal_call) :
  hides (a ++ b)%list = (hides a ++ hides b)%list.
Proof.
  induction a as [|c a IH]; [reflexivity|].
  destruct c; simpl; rewrite ?IH; reflexivity.
Qed.

Lemma submissions_app (a b : list modal_call) :
  submissions (a ++ b)%list = (submissions a ++ submissions b)%list.
Proof.
  induction a as [|c a IH]; [reflexivity|].
  destruct c; simpl; rewrite ?IH; reflexivity.
Qed.

(** [!!error?.length] holds exactly of a non-empty string. *)
Lemma error_shown_iff (error : js string) :
  truthy (optional_length error)
  = match error with val s => nonempty s | _ => false end.
Proof. destruct error as [| |[|c s]]; reflexivity. Qed.

(** C3.  In every render of the dashboard and of the dataset import
    modal, the Upload button is disabled exactly when no file is selected
    or the [error] prop is a non-empty string; and a click on Upload while
    no file is selected does nothing: no [onSubmit] call, no change of
    state. *)
Theorem upload_disabled_without_file :
  (forall props s,
      upload_disabled (ImportDashboardModal.render props s)
      = negb (is_object (ImportDashboardModal.dashboardFile s))
        || match ImportDashboardModal.error props with
           | val msg => nonempty msg
           | _ => false
           end)
  /\ (forall props s,
         upload_disabled (ImportDatasetModal.render props s)
         = negb (is_object (ImportDatasetModal.datasetFile s))
           || match ImportDatasetModal.error props with
              | val msg => nonempty msg
              | _ => false
              end)
  /\ (forall props w,
         is_object
           (ImportDashboardModal.dashboardFile
              (ImportDashboardModal.state w)) = false ->
         ImportDashboardModal.clickUpload props w = (Return tt, w))
  /\ (forall props w,
         is_object
           (ImportDatasetModal.datasetFile
              (ImportDatasetModal.state w)) = false ->
         ImportDatasetModal.clickUpload props w = (Return tt, w)).
Proof.
  repeat split.
  - intros props s. cbn. now rewrite error_shown_iff.
  - intros props s. cbn. now rewrite error_shown_iff.
  - intros props w Hnone.
    unfold ImportDashboardModal.clickUpload. cbn. now rewrite Hnone.
  - intros props w Hnone.
    unfold ImportDatasetModal.clickUpload. cbn. now rewrite Hnone.
Qed.

(** C5.  [onCancel(e)] of either import modal returns normally, leaves the
    stored file [undefined] and calls [onHide] once, with [e]. *)
Theorem onCancel_clears_file_and_hides :
  (forall e w,
      ImportDashboardModal.onCancel e w
      = (Return tt,
         {| ImportDashboardModal.state :=
              {| ImportDashboardModal.dashboardFile := undefined |};
            ImportDashboardModal.trace :=
              (ImportDashboardModal.trace w ++ [OnHide e])%list |})
      /\ hides
           (ImportDashboardModal.trace
              (exec (ImportDashboardModal.onCancel e) w))
         = (hides (ImportDashboardModal.trace w) ++ [e])%list)
  /\ (forall e w,
         ImportDatasetModal.onCancel e w
         = (Return tt,
            {| ImportDatasetModal.state :=
                 {| ImportDatasetModal.datasetFile := undefined |};
               ImportDatasetModal.trace :=
                 (ImportDatasetModal.trace w ++ [OnHide e])%list |})
         /\ hides
              (ImportDatasetModal.trace
                 (exec (ImportDatasetModal.onCancel e) w))
            = (hides (ImportDatasetModal.trace w) ++ [e])%list).
Proof.
  split; intros e w; (split; [reflexivity|]); cbn;
    rewrite hides_app; reflexivity.
Qed.

End ImportModalFacts.

(* ================================================================== *)
(** * Properties of the import helpers                                   *)
(* ================================================================== *)

Section ClientFacts.

(** C6.  Whatever the server answers, [post f] sends exactly one request,
    to [/api/v1/dashboard/import/], and [importDataset f] exactly one, to
    [/api/v1/dataset/import/]; in both the body is a form data whose only
    entry is the file [f] under the name [formData]. *)
Theorem import_helpers_post_the_file server (f : File) sent :
  exec (post server f) sent
  = (sent
     ++ [{| endpoint := "/api/v1/dashboard/import/";
            body := [("formData", f)] |}])%list
  /\ exec (importDataset server f) sent
     = (sent
        ++ [{| endpoint := "/api/v1/dataset/import/";
               body := [("formData", f)] |}])%list.
Proof.
  unfold exec, post, importDataset, bind, SupersetClient_post, ret.
  split.
  - destruct (server _); reflexivity.
  - destruct (server _); reflexivity.
Qed.

End ClientFacts.

(* ================================================================== *)
(** * Properties of the chart table                                      *)
(* ================================================================== *)

Section ChartTableFacts.

Import ChartTable.

Lemma fetches_app (a b : list table_call) :
  fetches (a ++ b)%list = (fetches a ++ fetches b)%list.
Proof.
  induction a as [|c a IH]; [reflexivity|].
  destruct c; simpl; rewrite ?IH; reflexivity.
Qed.

Lemma requests_app (a b : list table_call) :
  requests (a ++ b)%list = (requests a ++ requests b)%list.
Proof.
  induction a as [|c a IH]; [reflexivity|].
  destruct c; simpl; rewrite ?IH; reflexivity.
Qed.

(** C7.  With user id 42, [getData('Mine')] calls [fetchData] exactly
    once, with page index 0, page size 3, a descending sort on
    [changed_on_delta_humanized] and the single filter [created_by]
    [rel_o_m] ['42']; one request for the chart resource leaves with that
    page request, and when it succeeds the resource collection is the
    [result] array of the response. *)
Theorem getData_mine_fetches_own_charts (D : Type) (w : World D) :
  let mine :=
    {| pageIndex := 0%Z;
       pageSize := 3%Z;
       sortBy := [{| SortColumn.id := "changed_on_delta_humanized";
                     SortColumn.desc := true |}];
       filters := [{| id := "created_by"; operator := "rel_o_m";
                      value := Text "42" |}] |} in
  let w' := exec (getData D (val {| userId := 42%Z |}) "Mine") w in
  fetches (trace w') = (fetches (trace w) ++ [mine])%list
  /\ requests (trace w') = (requests (trace w) ++ [("chart", mine)])%list
  /\ inflight w' = (inflight w ++ [mine])%list
  /\ resourceCollection w' = resourceCollection w
  /\ forall result count,
       resourceCollection (exec (fetchData_success D result count) w')
       = result.
Proof.
  cbv zeta. cbn.
  rewrite !fetches_app, !requests_app. cbn.
  rewrite !app_nil_r. repeat split.
Qed.

End ChartTableFacts.

(* ================================================================== *)
(** * More on the database selector                                      *)
(* ================================================================== *)

Section DatabaseSelectorMore.

Import DatabaseSelector.

Local Arguments schemas_endpoint : simpl never.

Lemma gets_app (a b : list call) :
  gets (a ++ b)%list = (gets a ++ gets b)%list.
Proof.
  induction a as [|c a IH]; [reflexivity|].
  destruct c; simpl; rewrite ?IH; reflexivity.
Qed.

Lemma extends_refl w : extends w w.
Proof. exists []. rewrite app_nil_r. split; [reflexivity|constructor]. Qed.

Lemma extends_trans w1 w2 w3 :
  extends w1 w2 -> extends w2 w3 -> extends w1 w3.
Proof.
  intros (a & Ha & Fa) (b & Hb & Fb). exists (a ++ b)%list. split.
  - now rewrite Hb, Ha, app_assoc.
  - rewrite gets_app. apply Forall_app. now split.
Qed.

Lemma fetchSchemas_extends props d f w :
  extends w (exec (fetchSchemas props d f) w).
Proof.
  unfold exec. rewrite fetchSchemas_unfold. cbv zeta.
  destruct (truthy (or_else d (dbId props))) eqn:E; cbn [snd].
  - eexists. split; [reflexivity|]. cbn. constructor; [|constructor].
    exists (or_else d (dbId props)), f. now split.
  - apply extends_refl.
Qed.

Lemma effect_extends props r w : extends w (exec (effect props r) w).
Proof.
  unfold effect, when. destruct (truthy (currentDbId r)).
  - assert (H : exec (fetchSchemas props (currentDbId r) false ;; ret tt)%handler w
                = exec (fetchSchemas props (currentDbId r) false) w).
    { unfold exec, bind, ret.
      destruct (fetchSchemas props (currentDbId r) false w) as [[p|x] w'];
        reflexivity. }
    rewrite H. apply fetchSchemas_extends.
  - apply extends_refl.
Qed.

Lemma commit_extends props before w : extends w (commit props before w).
Proof.
  unfold commit.
  destruct (same_value Z.eqb (currentDbId before) (currentDbId (hooks w))).
  - apply extends_refl.
  - apply effect_extends.
Qed.

Lemma changeDataBase_extends props r db force w :
  extends w (exec (changeDataBase props r db force) w).
Proof.
  rewrite changeDataBase_unfold. cbv zeta.
  eexists. split; [reflexivity|].
  destruct (truthy _) eqn:E, (onChange props); cbn;
    repeat constructor.
  all: eexists _, force; split; [exact E|reflexivity].
Qed.

(** [changeSchema] written out. *)
Lemma changeSchema_unfold props r item force w :
  exec (changeSchema props r item force) w =
  let chosen := match item with val o => val (value o) | _ => null end in
  {| hooks :=
       {| currentDbId := currentDbId (hooks w);
          currentSchema := chosen;
          schemaLoading := schemaLoading (hooks w);
          schemaOptions := schemaOptions (hooks w) |};
     inflight := inflight w;
     trace :=
       (trace w
        ++ [OnSchemaChange chosen; SetCurrentSchema chosen]
        ++ (if onChange props
            then [OnChange (currentDbId r) (currentSchema r)] else [])
        ++ (if getTableList props
            then [GetTableList (currentDbId r) chosen force] else []))%list |}.
Proof.
  unfold changeSchema, onSelectChange, when, exec. cbv zeta.
  destruct (onChange props), (getTableList props); cbn;
    rewrite <- ?app_assoc; cbn; rewrite ?app_nil_r; reflexivity.
Qed.

Lemma changeSchema_extends props r item force w :
  extends w (exec (changeSchema props r item force) w).
Proof.
  rewrite changeSchema_unfold. cbv zeta.
  eexists. split; [reflexivity|].
  destruct (onChange props), (getTableList props); cbn; constructor.
Qed.

Lemma dbMutator_extends props result w :
  extends w (exec (dbMutator props result) w).
Proof.
  unfold dbMutator, when, exec.
  destruct (getDbList props), (length result =? 0)%nat; cbn.
  all: try apply extends_refl.
  all: eexists; split; [try rewrite <- app_assoc; reflexivity|cbn; constructor].
Qed.

(** The continuation of a request whose response carries the names. *)
Lemma settled_names_unfold props names w :
  settled props (Fulfilled (val names)) w =
  let options :=
    map (fun s => {| value := s; label := s; title := s |}) names in
  (Return tt,
   {| hooks :=
        {| currentDbId := currentDbId (hooks w);
           currentSchema := currentSchema (hooks w);
           schemaLoading := false;
           schemaOptions := options |};
      inflight := inflight w;
      trace :=
        (trace w
         ++ [SetSchemaOptions options; SetSchemaLoading false]
         ++ (if onSchemasLoad props then [OnSchemasLoad options] else []))%list |}).
Proof.
  unfold settled, try_catch, fetchSchemas_then, when. cbv zeta.
  destruct (onSchemasLoad props); cbn;
    rewrite <- ?app_assoc; cbn; rewrite ?app_nil_r; reflexivity.
Qed.

Lemma settled_failed_unfold props r w :
  failed r = true ->
  settled props r w =
  (Return tt,
   {| hooks :=
        {| currentDbId := currentDbId (hooks w);
           currentSchema := currentSchema (hooks w);
           schemaLoading := false;
           schemaOptions := [] |};
      inflight := inflight w;
      trace :=
        (trace w
         ++ [SetSchemaOptions []; SetSchemaLoading false;
             HandleError (t "Error while fetching schema list")])%list |}).
Proof.
  intros Hf.
  assert (Hset : settled props r w = fetchSchemas_catch w).
  { destruct r as [[| |names]|]; try discriminate Hf; reflexivity. }
  rewrite Hset.
  unfold fetchSchemas_catch, setSchemaOptions, setSchemaLoading, bind,
    emit, write.
  cbn. rewrite <- !app_assoc. reflexivity.
Qed.

Lemma settled_extends props r w : extends w (exec (settled props r) w).
Proof.
  unfold exec. destruct (failed r) eqn:Hf.
  - rewrite settled_failed_unfold by exact Hf. cbn [snd].
    eexists. split; [reflexivity|]. cbn. constructor.
  - destruct r as [[| |names]|]; try discriminate Hf.
    rewrite settled_names_unfold. cbv zeta. cbn [snd].
    eexists. split; [reflexivity|].
    destruct (onSchemasLoad props); cbn; constructor.
Qed.

Lemma step_extends props a w : extends w (step props a w).
Proof.
  destruct a as [db| |item|result|i r]; cbn [step].
  - unfold change.
    eapply extends_trans; [apply changeDataBase_extends|apply commit_extends].
  - destruct (formMode props); [apply extends_refl|].
    unfold change.
    eapply extends_trans; [apply changeDataBase_extends|apply commit_extends].
  - eapply extends_trans; [apply changeSchema_extends|apply commit_extends].
  - apply dbMutator_extends.
  - destruct (nth_error (inflight w) i); [|apply extends_refl].
    eapply extends_trans; [|apply commit_extends].
    match goal with
    | |- extends _ (exec _ ?w0) =>
        apply (extends_trans w w0); [|apply settled_extends]
    end.
    exists []. cbn. rewrite app_nil_r. split; [reflexivity|constructor].
Qed.

Lemma run_extends props actions :
  forall w, extends w (run props actions w).
Proof.
  induction actions as [|a actions IH]; intros w; [apply extends_refl|].
  cbn. eapply extends_trans; [apply step_extends|apply IH].
Qed.

Lemma gets_In e tr : In (Get e) tr -> In e (gets tr).
Proof.
  induction tr as [|c tr IH]; [intros []|].
  intros [->|H]; [now left|].
  destruct c; cbn; auto.
Qed.

(** X1.  Along every run of a mounted selector, each request handed to
    [SupersetClient.get] is a schema request for a truthy database id: the
    component never asks for the schemas of [null], [undefined] or [0]. *)
Theorem requests_only_for_truthy_ids props actions e :
  In (Get e) (trace (run props actions (mount props))) ->
  exists d f,
    truthy d = true
    /\ e = "/api/v1/database/" ++ interpolate d ++ "/schemas/?q="
           ++ rison.encode (rison.Obj [("force", rison.Bool f)]).
Proof.
  intros Hin. apply gets_In in Hin.
  pose (w0 :=
          {| hooks :=
               {| currentDbId := dbId props; currentSchema := schema props;
                  schemaLoading := false; schemaOptions := [] |};
             inflight := []; trace := [] |}).
  assert (Hext : extends w0 (run props actions (mount props))).
  { eapply extends_trans; [|apply run_extends].
    unfold mount. apply (effect_extends props _ w0). }
  destruct Hext as (added & Htr & Hall).
  cbn in Htr. rewrite Htr in Hin.
  rewrite Forall_forall in Hall. exact (Hall e Hin).
Qed.

Lemma requests_only_for_truthy_ids_witness :
  In (Get "/api/v1/database/2/schemas/?q=(force:!f)")
    (trace (run selector_on_1 [SelectDatabase (val database_2)]
              (mount selector_on_1)))
  /\ exists d f,
       truthy d = true
       /\ "/api/v1/database/2/schemas/?q=(force:!f)"
          = "/api/v1/database/" ++ interpolate d ++ "/schemas/?q="
            ++ rison.encode (rison.Obj [("force", rison.Bool f)]).
Proof.
  assert (H : In (Get "/api/v1/database/2/schemas/?q=(force:!f)")
                (trace (run selector_on_1 [SelectDatabase (val database_2)]
                          (mount selector_on_1)))).
  { vm_compute. do 6 right. left. reflexivity. }
  split; [exact H|].
  exact (requests_only_for_truthy_ids selector_on_1
           [SelectDatabase (val database_2)] _ H).
Defined.

(** A call of [changeDataBase] with a row whose id is truthy, and the
    render after it. *)
Lemma change_to_row props w d force :
  truthy (id d) = true ->
  let w' := change props (val d) force w in
  hooks w'
  = {| currentDbId := id d; currentSchema := undefined;
       schemaLoading := true; schemaOptions := [] |}
  /\ inflight w'
     = (inflight w
        ++ schemas_endpoint (id d) force
           :: (if same_value Z.eqb (currentDbId (hooks w)) (id d) then []
               else [schemas_endpoint (id d) false]))%list.
Proof.
  intros Ht. cbv zeta. unfold change.
  rewrite changeDataBase_unfold. cbv zeta.
  assert (Ho : or_else (id d) (dbId props) = id d)
    by (unfold or_else; now rewrite Ht).
  rewrite Ho, Ht. unfold commit. cbn [hooks currentDbId].
  destruct (same_value Z.eqb (currentDbId (hooks w)) (id d)).
  - cbn. split; reflexivity.
  - unfold effect, when. cbn [currentDbId]. rewrite Ht.
    unfold exec, bind. rewrite fetchSchemas_unfold. cbv zeta.
    rewrite Ho, Ht. cbn. rewrite <- app_assoc. split; reflexivity.
Qed.

(** X2.  Selecting a database row with a truthy id other than the current
    selection requests its schema list twice: once from [changeDataBase],
    with the caller's [force], and once more from the effect on
    [currentDbId], never forced.  Selecting the current database again
    requests it once. *)
Theorem selecting_another_database_fetches_twice props w d force :
  truthy (id d) = true ->
  inflight (change props (val d) force w)
  = (inflight w
     ++ if same_value Z.eqb (currentDbId (hooks w)) (id d)
        then [schemas_endpoint (id d) force]
        else [schemas_endpoint (id d) force;
              schemas_endpoint (id d) false])%list.
Proof.
  intros Ht. destruct (change_to_row props w d force Ht) as [_ Hi].
  rewrite Hi.
  destruct (same_value Z.eqb (currentDbId (hooks w)) (id d)); reflexivity.
Qed.

Lemma selecting_another_database_fetches_twice_witness :
  truthy (id database_2) = true
  /\ inflight (change selector_on_1 (val database_2) true
                 (mount selector_on_1))
     = ["/api/v1/database/1/schemas/?q=(force:!f)";
        "/api/v1/database/2/schemas/?q=(force:!t)";
        "/api/v1/database/2/schemas/?q=(force:!f)"].
Proof.
  split; [reflexivity|].
  exact (selecting_another_database_fetches_twice selector_on_1
           (mount selector_on_1) database_2 true eq_refl).
Defined.

(** X3.  The refresh button (rendered outside form mode only) calls
    [changeDataBase({ id: dbId }, true)] with the [dbId] prop: whatever
    database is selected, the selection becomes the prop's database, the
    schema and the options are cleared, and a forced request for the prop's
    database is issued (followed by an unforced one when the selection
    changed). *)
Theorem refresh_reselects_the_prop_database props w :
  formMode props = false ->
  truthy (dbId props) = true ->
  let w' := step props Refresh w in
  hooks w'
  = {| currentDbId := dbId props; currentSchema := undefined;
       schemaLoading := true; schemaOptions := [] |}
  /\ inflight w'
     = (inflight w
        ++ schemas_endpoint (dbId props) true
           :: (if same_value Z.eqb (currentDbId (hooks w)) (dbId props)
               then []
               else [schemas_endpoint (dbId props) false]))%list.
Proof.
  intros Hm Ht. cbv zeta. cbn [step]. rewrite Hm.
  exact (change_to_row props w
           {| id := dbId props; backend := undefined;
              database_name := undefined |} true Ht).
Qed.

Lemma refresh_reselects_the_prop_database_witness :
  formMode selector_on_1 = false
  /\ truthy (dbId selector_on_1) = true
  /\ currentDbId
       (hooks
          (step selector_on_1 Refresh
             (change selector_on_1 (val database_2) false
                (mount selector_on_1))))
     = val 1%Z.
Proof.
  split; [reflexivity|]. split; [reflexivity|].
  exact (f_equal currentDbId
           (proj1 (refresh_reselects_the_prop_database selector_on_1
                     (change selector_on_1 (val database_2) false
                        (mount selector_on_1))
                     eq_refl eq_refl))).
Defined.

(** X4.  Clearing the database ([changeDataBase] with [null] or
    [undefined]) leaves [currentDbId] [null], yet still requests the schema
    list of the [dbId] prop when that prop is truthy; the effect adds no
    request. *)
Theorem clearing_the_database_fetches_the_prop props w db force :
  is_object db = false ->
  let w' := change props db force w in
  currentDbId (hooks w') = null
  /\ currentSchema (hooks w') = undefined
  /\ inflight w'
     = (inflight w
        ++ if truthy (dbId props)
           then [schemas_endpoint (dbId props) force] else [])%list.
Proof.
  intros Hn. cbv zeta. unfold change.
  rewrite changeDataBase_unfold. cbv zeta.
  assert (Hsel : match db with val d => id d | _ => null end = null)
    by (destruct db; [reflexivity|reflexivity|discriminate Hn]).
  rewrite Hsel.
  assert (Ho : or_else null (dbId props) = dbId props) by reflexivity.
  rewrite Ho. unfold commit. cbn [hooks currentDbId].
  destruct (same_value _ _ _);
    [|unfold effect, when, exec]; cbn; repeat split.
Qed.

Lemma clearing_the_database_fetches_the_prop_witness :
  is_object (@null Database) = false
  /\ inflight (change selector_on_1 null false (mount selector_on_1))
     = ["/api/v1/database/1/schemas/?q=(force:!f)";
        "/api/v1/database/1/schemas/?q=(force:!f)"].
Proof.
  split; [reflexivity|].
  exact (proj2 (proj2 (clearing_the_database_fetches_the_prop selector_on_1
                         (mount selector_on_1) null false eq_refl))).
Defined.

(** X5.  Mounting the selector starts from the [dbId] and [schema] props
    with no options, and requests the schema list (unforced) exactly when
    the [dbId] prop is truthy. *)
Theorem mount_fetches_for_the_prop props :
  mount props
  = {| hooks :=
         {| currentDbId := dbId props; currentSchema := schema props;
            schemaLoading := truthy (dbId props); schemaOptions := [] |};
       inflight :=
         if truthy (dbId props)
         then [schemas_endpoint (dbId props) false] else [];
       trace :=
         if truthy (dbId props)
         then [SetSchemaLoading true;
               Get (schemas_endpoint (dbId props) false)]
         else [] |}.
Proof.
  unfold mount, effect, when. cbn [currentDbId].
  destruct (truthy (dbId props)) eqn:Ht; [|reflexivity].
  unfold exec, bind. rewrite fetchSchemas_unfold. cbv zeta.
  assert (Ho : or_else (dbId props) (dbId props) = dbId props)
    by (unfold or_else; now rewrite Ht).
  rewrite Ho, Ht. reflexivity.
Qed.

(** X6.  Choosing a schema tells [onSchemaChange] and [getTableList] the
    schema just chosen ([null] when the choice is cleared), but [onChange]
    the database and the schema of the render before the choice; it issues
    no request and leaves the database and the options alone. *)
Theorem choosing_a_schema props w item :
  let chosen := match item with val o => val (value o) | _ => null end in
  let w' := step props (SelectSchema item) w in
  hooks w'
  = {| currentDbId := currentDbId (hooks w); currentSchema := chosen;
       schemaLoading := schemaLoading (hooks w);
       schemaOptions := schemaOptions (hooks w) |}
  /\ inflight w' = inflight w
  /\ trace w'
     = (trace w
        ++ [OnSchemaChange chosen; SetCurrentSchema chosen]
        ++ (if onChange props
            then [OnChange (currentDbId (hooks w)) (currentSchema (hooks w))]
            else [])
        ++ (if getTableList props
            then [GetTableList (currentDbId (hooks w)) chosen false]
            else []))%list.
Proof.
  cbv zeta. cbn [step]. rewrite changeSchema_unfold. cbv zeta.
  unfold commit. cbn [hooks currentDbId]. rewrite same_value_refl.
  repeat split.
Qed.

(** X7.  When a schema request succeeds, the options are the names of
    the response, in order, each as value, label and title; the loading
    indicator goes off even if other requests are still in flight;
    [onSchemasLoad], when supplied, gets these options; [handleError] is
    not called and the selection is untouched, whichever database the
    request was for. *)
Theorem fetched_names_become_options props w i e names :
  nth_error (inflight w) i = Some e ->
  let options :=
    map (fun s => {| value := s; label := s; title := s |}) names in
  let w' := step props (Settle i (Fulfilled (val names))) w in
  hooks w'
  = {| currentDbId := currentDbId (hooks w);
       currentSchema := currentSchema (hooks w);
       schemaLoading := false; schemaOptions := options |}
  /\ inflight w' = remove_nth i (inflight w)
  /\ trace w'
     = (trace w
        ++ [SetSchemaOptions options; SetSchemaLoading false]
        ++ (if onSchemasLoad props then [OnSchemasLoad options] else []))%list
  /\ errors (trace w') = errors (trace w).
Proof.
  intros Hi. cbv zeta. cbn [step]. rewrite Hi.
  unfold exec. rewrite settled_names_unfold. cbv zeta. cbn [snd].
  unfold commit. cbn [hooks currentDbId]. rewrite same_value_refl.
  cbn [hooks inflight trace]. repeat split.
  rewrite errors_app. destruct (onSchemasLoad props); cbn;
    now rewrite app_nil_r.
Qed.

Lemma fetched_names_become_options_witness :
  nth_error (inflight (mount selector_on_1)) 0
  = Some "/api/v1/database/1/schemas/?q=(force:!f)"
  /\ schemaOptions
       (hooks
          (step selector_on_1 (Settle 0 (Fulfilled (val ["main"; "tmp"])))
             (mount selector_on_1)))
     = [{| value := "main"; label := "main"; title := "main" |};
        {| value := "tmp"; label := "tmp"; title := "tmp" |}].
Proof.
  split; [reflexivity|].
  exact (f_equal schemaOptions
           (proj1 (fetched_names_become_options selector_on_1
                     (mount selector_on_1) 0
                     "/api/v1/database/1/schemas/?q=(force:!f)"
                     ["main"; "tmp"] eq_refl))).
Defined.

(** X8.  [dbMutator] returns the rows of the response in order, none
    dropped or added, each with a label; a row with a backend and a name has
    the label "backend name".  [getDbList], when supplied, is called with
    the rows before any error is reported. *)
Theorem dbMutator_labels_every_row props w result :
  exists rows,
    outcome (dbMutator props result) w = Return rows
    /\ map row rows = result
    /\ (forall r b n,
           In r rows ->
           backend (row r) = val b ->
           database_name (row r) = val n ->
           row_label r = b ++ " " ++ n)
    /\ trace (exec (dbMutator props result) w)
       = (trace w
          ++ (if getDbList props then [GetDbList result] else [])
          ++ match result with
             | [] =>
                 [HandleError
                    (t "It seems you don't have access to any database")]
             | _ :: _ => []
             end)%list.
Proof.
  eexists. split; [|split; [|split]].
  - unfold outcome, dbMutator, when.
    destruct (getDbList props), (length result =? 0)%nat; reflexivity.
  - rewrite map_map. cbn. apply map_id.
  - intros r b n Hin Hb Hn. apply in_map_iff in Hin as (x & <- & _).
    cbn in *. now rewrite Hb, Hn.
  - unfold exec, dbMutator, when.
    destruct (getDbList props), result as [|d rest]; cbn;
      rewrite <- ?app_assoc; cbn; rewrite ?app_nil_r; reflexivity.
Qed.

End DatabaseSelectorMore.

(* ================================================================== *)
(** * More on the import modals                                          *)
(* ================================================================== *)

Section ImportModalMore.

Lemma selections_app (a b : list modal_call) :
  selections (a ++ b)%list = selections a + selections b.
Proof.
  induction a as [|c a IH]; [reflexivity|].
  destruct c; simpl; rewrite ?IH; reflexivity.
Qed.

(** X9.  [changeFile] of either modal keeps the first file of the
    selection and drops the others; when the event carries no file list, or
    an empty one, the stored file becomes [undefined] and Upload is disabled
    in the next render.  [onFileSelect] is called once in every case. *)
Theorem changeFile_keeps_the_first_file :
  (forall event w,
      let w' := exec (ImportDashboardModal.changeFile event) w in
      ImportDashboardModal.dashboardFile (ImportDashboardModal.state w')
      = match files event with
        | val (f :: _) => val f
        | _ => undefined
        end
      /\ selections (ImportDashboardModal.trace w')
         = S (selections (ImportDashboardModal.trace w))
      /\ forall props,
           upload_disabled
             (ImportDashboardModal.render props
                (ImportDashboardModal.state w'))
           = match files event with
             | val (_ :: _) =>
                 truthy (optional_length (ImportDashboardModal.error props))
             | _ => true
             end)
  /\ (forall event w,
         let w' := exec (ImportDatasetModal.changeFile event) w in
         ImportDatasetModal.datasetFile (ImportDatasetModal.state w')
         = match files event with
           | val (f :: _) => val f
           | _ => undefined
           end
         /\ selections (ImportDatasetModal.trace w')
            = S (selections (ImportDatasetModal.trace w))
         /\ forall props,
              upload_disabled
                (ImportDatasetModal.render props
                   (ImportDatasetModal.state w'))
              = match files event with
                | val (_ :: _) =>
                    truthy (optional_length (ImportDatasetModal.error props))
                | _ => true
                end).
Proof.
  split; intros [fs] w; cbn; rewrite selections_app; cbn;
    (split; [|split; [apply Nat.add_1_r|intros props]]);
    destruct fs as [| |[|f rest]]; reflexivity.
Qed.

(** X10.  [submit] of either modal calls [preventDefault] and
    [stopPropagation] on the event and then [onSubmit] with the stored
    file, once, without changing the state; it does so too when no file is
    stored, and [onSubmit] then receives [undefined]. *)
Theorem submit_passes_the_stored_file :
  (forall w,
      ImportDashboardModal.submit w
      = (Return tt,
         {| ImportDashboardModal.state := ImportDashboardModal.state w;
            ImportDashboardModal.trace :=
              (ImportDashboardModal.trace w
               ++ [PreventDefault; StopPropagation;
                   OnSubmit
                     (ImportDashboardModal.dashboardFile
                        (ImportDashboardModal.state w))])%list |}))
  /\ (forall w,
         ImportDatasetModal.submit w
         = (Return tt,
            {| ImportDatasetModal.state := ImportDatasetModal.state w;
               ImportDatasetModal.trace :=
                 (ImportDatasetModal.trace w
                  ++ [PreventDefault; StopPropagation;
                      OnSubmit
                        (ImportDatasetModal.datasetFile
                           (ImportDatasetModal.state w))])%list |})).
Proof.
  split; intros w.
  - unfold ImportDashboardModal.submit, ImportDashboardModal.emit, bind.
    cbn. rewrite <- !app_assoc. reflexivity.
  - unfold ImportDatasetModal.submit, ImportDatasetModal.emit, bind.
    cbn. rewrite <- !app_assoc. reflexivity.
Qed.

(** X11.  After a file selection that carries at least one file, and while
    the [error] prop is absent or empty, a click on Upload submits exactly
    the first selected file; after [onCancel] a click on Upload submits
    nothing, whatever had been selected. *)
Theorem upload_submits_the_selected_file :
  (forall props f others w,
      truthy (optional_length (ImportDashboardModal.error props)) = false ->
      let chosen :=
        exec (ImportDashboardModal.changeFile {| files := val (f :: others) |})
          w in
      submissions
        (ImportDashboardModal.trace
           (exec (ImportDashboardModal.clickUpload props) chosen))
      = (submissions (ImportDashboardModal.trace w) ++ [val f])%list
      /\ forall e,
           submissions
             (ImportDashboardModal.trace
                (exec (ImportDashboardModal.clickUpload props)
                   (exec (ImportDashboardModal.onCancel e) chosen)))
           = submissions (ImportDashboardModal.trace w))
  /\ (forall props f others w,
         truthy (optional_length (ImportDatasetModal.error props)) = false ->
         let chosen :=
           exec (ImportDatasetModal.changeFile {| files := val (f :: others) |})
             w in
         submissions
           (ImportDatasetModal.trace
              (exec (ImportDatasetModal.clickUpload props) chosen))
         = (submissions (ImportDatasetModal.trace w) ++ [val f])%list
         /\ forall e,
              submissions
                (ImportDatasetModal.trace
                   (exec (ImportDatasetModal.clickUpload props)
                      (exec (ImportDatasetModal.onCancel e) chosen)))
              = submissions (ImportDatasetModal.trace w)).
Proof.
  split; intros props f others w He; cbv zeta.
  - split.
    + unfold exec, ImportDashboardModal.clickUpload. cbn. rewrite He. cbn.
      rewrite !submissions_app. cbn. now rewrite !app_nil_r.
    + intros e. unfold exec, ImportDashboardModal.clickUpload. cbn.
      rewrite !submissions_app. cbn. now rewrite !app_nil_r.
  - split.
    + unfold exec, ImportDatasetModal.clickUpload. cbn. rewrite He. cbn.
      rewrite !submissions_app. cbn. now rewrite !app_nil_r.
    + intros e. unfold exec, ImportDatasetModal.clickUpload. cbn.
      rewrite !submissions_app. cbn. now rewrite !app_nil_r.
Qed.

(** X12.  Either modal is visible exactly when [show] is set, and shows
    the import error alert exactly when the [error] prop is a non-empty
    string, with that string unchanged as its text. *)
Theorem alert_shows_the_error_verbatim :
  (forall props s,
      visible (ImportDashboardModal.render props s)
      = ImportDashboardModal.show props
      /\ alert (ImportDashboardModal.render props s)
         = match ImportDashboardModal.error props with
           | val msg => if nonempty msg then Some msg else None
           | _ => None
           end)
  /\ (forall props s,
         visible (ImportDatasetModal.render props s)
         = ImportDatasetModal.show props
         /\ alert (ImportDatasetModal.render props s)
            = match ImportDatasetModal.error props with
              | val msg => if nonempty msg then Some msg else None
              | _ => None
              end).
Proof.
  split; intros [sh [| |[|c msg]]] s; split; reflexivity.
Qed.

(** X13.  [componentDidUpdate] of the dataset modal resets the form
    exactly when the [error] prop is a non-empty string, the previous one
    was not, and the form is mounted; it never changes the state, so the
    file stored before the reset stays stored. *)
Theorem componentDidUpdate_resets_on_new_error props prevProps form w :
  ImportDatasetModal.componentDidUpdate props prevProps form w
  = (Return tt,
     {| ImportDatasetModal.state := ImportDatasetModal.state w;
        ImportDatasetModal.trace :=
          (ImportDatasetModal.trace w
           ++ if match ImportDatasetModal.error props with
                 | val msg => nonempty msg
                 | _ => false
                 end
                 && negb
                      match ImportDatasetModal.error prevProps with
                      | val msg => nonempty msg
                      | _ => false
                      end
                 && form
              then [FormReset] else [])%list |}).
Proof.
  unfold ImportDatasetModal.componentDidUpdate, when.
  rewrite !error_shown_iff.
  destruct (_ && _ && form); cbn; [reflexivity|].
  rewrite app_nil_r. now destruct w.
Qed.

End ImportModalMore.

(* ================================================================== *)
(** * More on the import helpers                                         *)
(* ================================================================== *)

Section ClientMore.

(** X14.  Both helpers send their request before anything else; when the
    server rejects it, the helper throws what the client threw; when the
    server answers, [post] returns nothing and [importDataset] returns the
    very response. *)
Theorem import_helpers_propagate_the_outcome server (f : File) sent :
  outcome (post server f) sent
  = match server {| endpoint := "/api/v1/dashboard/import/";
                    body := [("formData", f)] |} with
    | Return _ => Return tt
    | Throw what => Throw what
    end
  /\ outcome (importDataset server f) sent
     = server {| endpoint := "/api/v1/dataset/import/";
                 body := [("formData", f)] |}.
Proof.
  unfold outcome, post, importDataset, bind, SupersetClient_post, ret.
  split.
  - cbn. destruct (server _); reflexivity.
  - cbn. destruct (server _); reflexivity.
Qed.

End ClientMore.

(* ================================================================== *)
(** * More on the chart table                                            *)
(* ================================================================== *)

Section ChartTableMore.

Import ChartTable.

(** X15.  [getFilters] always returns exactly one filter.  For the name
    ['Mine'] it is [created_by] [rel_o_m] with the user id in decimal, or
    the text ['undefined'] when there is no user; for every other name,
    whatever its spelling, it is the favourite filter [id] [chart_is_fav]
    [true]. *)
Theorem getFilters_one_filter (user : js User) (filterName : string) :
  getFilters user filterName
  = [if String.eqb filterName "Mine"
     then {| id := "created_by"; operator := "rel_o_m";
             value :=
               Text
                 match user with
                 | val u => string_of_number (userId u)
                 | _ => "undefined"
                 end |}
     else {| id := "id"; operator := "chart_is_fav"; value := Flag true |}]
  /\ (filterName <> "Mine" ->
      getFilters user filterName
      = [{| id := "id"; operator := "chart_is_fav"; value := Flag true |}]).
Proof.
  unfold getFilters, optional_userId, interpolate. split.
  - destruct (String.eqb filterName "Mine"); cbn; [|reflexivity].
    destruct user; reflexivity.
  - intros Hne. apply String.eqb_neq in Hne. now rewrite Hne.
Qed.

End ChartTableMore.

(* ================================================================== *)
(** * The icon registry                                                  *)
(* ================================================================== *)

Section IconFacts.

Import Icon.

Lemma lookup_key name registry c :
  lookup name registry = Some c -> In name (map fst registry).
Proof.
  induction registry as [|[k x] registry IH]; [discriminate|].
  cbn. destruct (String.eqb name k) eqn:E.
  - apply String.eqb_eq in E. now left.
  - intros H. right. now apply IH.
Qed.

Lemma lookup_member name registry :
  In name (map fst registry) -> exists c, lookup name registry = Some c.
Proof.
  induction registry as [|[k x] registry IH]; [intros []|].
  cbn. destruct (String.eqb name k) eqn:E.
  - intros _. now exists x.
  - intros [H|H]; [|now apply IH].
    subst k. now rewrite String.eqb_refl in E.
Qed.

Lemma existsb_eqb_In (k : string) (l : list string) :
  existsb (String.eqb k) l = true <-> In k l.
Proof.
  rewrite existsb_exists. split.
  - intros (x & Hx & E). apply String.eqb_eq in E. now subst.
  - intros H. exists k. split; [exact H|apply String.eqb_refl].
Qed.

Lemma subset_check (a b : list string) :
  forallb (fun k => existsb (String.eqb k) b) a = true -> incl a b.
Proof.
  rewrite forallb_forall. intros H k Hk.
  apply existsb_eqb_In. now apply H.
Qed.

(** X16.  [iconsRegistry] has a component for every [IconName] and for
    nothing else, no name is registered twice, and distinct names have
    distinct components. *)
Theorem iconsRegistry_covers_IconName :
  (forall name,
      In name IconName <-> exists c, lookup name iconsRegistry = Some c)
  /\ NoDup (map fst iconsRegistry)
  /\ NoDup (map snd iconsRegistry).
Proof.
  split; [|split].
  - intros name. split.
    + intros H. apply lookup_member. revert name H.
      apply subset_check. vm_compute. reflexivity.
    + intros [c H]. apply lookup_key in H. revert name H.
      apply subset_check. vm_compute. reflexivity.
  - apply (NoDup_count_occ' string_dec). intros x Hx.
    cbn in Hx. repeat (destruct Hx as [<-|Hx]; [vm_compute; reflexivity|]).
    destruct Hx.
  - apply (NoDup_count_occ' string_dec). intros x Hx.
    cbn in Hx. repeat (destruct Hx as [<-|Hx]; [vm_compute; reflexivity|]).
    destruct Hx.
Qed.

Lemma has_without k names o :
  has k (without names o)
  = has k o && negb (existsb (String.eqb k) names).
Proof.
  induction o as [|[k' v] o IH]; [reflexivity|].
  unfold without in *. cbn [filter fst].
  destruct (String.eqb k k') eqn:E.
  - apply String.eqb_eq in E. subst k'.
    destruct (existsb (String.eqb k) names) eqn:X; cbn [negb].
    + rewrite IH. cbn [has]. rewrite String.eqb_refl, !andb_false_r.
      reflexivity.
    + cbn [has]. rewrite String.eqb_refl. reflexivity.
  - destruct (negb (existsb (String.eqb k') names)); cbn [has];
      rewrite E, IH; reflexivity.
Qed.

Lemma read_absent k o : has k o = false -> read k o = undefined.
Proof.
  induction o as [|[k' v] o IH]; [reflexivity|].
  cbn [has]. intros Hh. apply orb_false_iff in Hh as [E Hh].
  cbn [read]. now rewrite Hh, E.
Qed.

Lemma read_without k names o :
  existsb (String.eqb k) names = false ->
  read k (without names o) = read k o.
Proof.
  intros Hk. induction o as [|[k' v] o IH]; [reflexivity|].
  assert (Hh : has k (without names o) = has k o)
    by (rewrite has_without, Hk; apply andb_true_r).
  unfold without in *. cbn [filter fst].
  destruct (existsb (String.eqb k') names) eqn:X; cbn [negb].
  - cbn [read]. rewrite IH.
    destruct (has k o) eqn:Ho; [reflexivity|].
    destruct (String.eqb k k') eqn:E; [|now apply read_absent].
    apply String.eqb_eq in E. subst k'. congruence.
  - cbn [read]. now rewrite Hh, IH.
Qed.

(** X17.  For a name of [IconName], [Icon] renders the registered
    component.  Its colour is the caller's, or [#666666] when the caller
    gave none; its view box is the caller's, or [0 0 24 24]; [data-test] is
    the icon name unless the caller passed a [data-test] of its own; [name]
    is not passed on; every other prop is passed on unchanged. *)
Theorem Icon_passes_props p n :
  read "name" p = val n ->
  In n IconName ->
  exists el,
    Icon p = Some el
    /\ lookup n iconsRegistry = Some (component el)
    /\ read "color" (attributes el) = default (read "color" p) "#666666"
    /\ read "viewBox" (attributes el) = default (read "viewBox" p) "0 0 24 24"
    /\ read "data-test" (attributes el)
       = (if has "data-test" p then read "data-test" p else val n)
    /\ has "name" (attributes el) = false
    /\ forall k,
         existsb (String.eqb k) ["name"; "color"; "viewBox"; "data-test"]
         = false ->
         read k (attributes el) = read k p
         /\ has k (attributes el) = has k p.
Proof.
  intros Hn Hin.
  assert (Hc : exists c, lookup n iconsRegistry = Some c).
  { apply lookup_member. clear Hn. revert n Hin.
    apply subset_check. vm_compute. reflexivity. }
  destruct Hc as [c Hc].
  unfold Icon. rewrite Hn, Hc. eexists. split; [reflexivity|].
  cbn [component attributes].
  set (rest := without ["name"; "color"; "viewBox"] p).
  assert (Hr : forall k, has k rest
                         = has k p
                           && negb (existsb (String.eqb k)
                                      ["name"; "color"; "viewBox"]))
    by (intros k; apply has_without).
  split; [reflexivity|].
  cbn [app read has].
  rewrite !Hr. cbn [existsb String.eqb Ascii.eqb Bool.eqb orb negb andb].
  rewrite !andb_false_r. cbn [orb].
  split; [reflexivity|]. split; [reflexivity|]. split.
  { rewrite andb_true_r. unfold rest.
    rewrite read_without by reflexivity.
    destruct (has "data-test" p); reflexivity. }
  split; [reflexivity|].
  intros k Hk.
  apply orb_false_iff in Hk as [Hk1 Hk].
  apply orb_false_iff in Hk as [Hk2 Hk].
  apply orb_false_iff in Hk as [Hk3 Hk].
  apply orb_false_iff in Hk as [Hk4 _].
  rewrite Hk2, Hk3, Hk4. cbn [orb].
  assert (Hrest : existsb (String.eqb k) ["name"; "color"; "viewBox"] = false)
    by (cbn [existsb]; now rewrite Hk1, Hk2, Hk3).
  rewrite Hr, Hrest. cbn [negb]. rewrite andb_true_r.
  unfold rest. rewrite read_without by exact Hrest.
  split; [|reflexivity].
  destruct (has k p) eqn:Hh; [reflexivity|].
  now rewrite read_absent.
Qed.

Lemma Icon_passes_props_witness :
  read "name" [("name", val "trash"); ("color", null); ("width", val "16")]
  = val "trash"
  /\ In "trash" IconName
  /\ exists el,
       Icon [("name", val "trash"); ("color", null); ("width", val "16")]
       = Some el
       /\ component el = "images/icons/trash.svg"
       /\ read "color" (attributes el) = null
       /\ read "viewBox" (attributes el) = val "0 0 24 24".
Proof.
  assert (Hn : read "name"
                 [("name", val "trash"); ("color", null);
                  ("width", val "16")] = val "trash") by reflexivity.
  assert (Hin : In "trash" IconName)
    by (cbn; repeat (first [left; reflexivity | right])).
  split; [exact Hn|]. split; [exact Hin|].
  destruct (Icon_passes_props _ "trash" Hn Hin)
    as (el & Hel & Hc & Hcol & Hvb & _).
  exists el. repeat split.
  - exact Hel.
  - cbn in Hc. congruence.
  - exact Hcol.
  - exact Hvb.
Defined.

End IconFacts.
